(** * Assembly / Flasik helper functions: a shallow embedding

    This development models the helper module shipped twice in the
    repository ([assembly/asm.py] and [flasik/functions.py]):

    - the session flash helpers [set_flash_data] / [get_flashed_data];
    - the [emit_signal] decorator with its inner [send] and [wrapper];
    - the storage helper [upload_file], and the emitters [upload_file]
      and [send_mail] that asm.py defines after [emit_signal] under the
      same names;
    - the URL-safe signing helpers [sign_data] / [unsign_data]
      (called [sign_url_safe] / [unsign_url_safe] in Flasik).

    Python objects are modelled by the inductive [value]; dictionaries
    are finite maps with string keys; raising is an [outcome]; the effects
    of user callables are transitions over an arbitrary world type, and
    every call the dispatcher performs is recorded in an event log. *)

From Stdlib Require Import ZArith List String Ascii Bool Lia.
From stdpp Require Import base option list gmap strings.

Local Set Warnings "-register-all".

(** ** Python values and exceptions *)

Inductive value : Type :=
  | VNone
  | VBool (b : bool)
  | VInt (z : Z)
  | VStr (s : string)
  | VTuple (l : list value)
  | VDict (d : gmap string value)
  | VFn (id : nat)
  | VObj (id : nat).

Abbreviation dict := (gmap string value).

Inductive exn : Type :=
  | TypeError
  | NameError
  | ValueError (msg : string)
  | UserError (tag : nat)
  | OverflowError
  | BadSignature
  | BadTimeSignature
  | BadPayload
  | SignatureExpired.

Inductive outcome (A : Type) : Type :=
  | Ret (a : A)
  | Raise (e : exn).
Arguments Ret {A} a.
Arguments Raise {A} e.

(** ** Binding call arguments to parameter names

    [argspec] is the 4-tuple returned by [inspect.getargspec]:
    positional parameter names, the name of the [*args] parameter, the
    name of the [**kwargs] parameter and the default values of the last
    positional parameters. *)

Record argspec : Type := ArgSpec {
  args : list string;
  varargs : option string;
  varkw : option string;
  defaults : list value
}.

(** [inspect.getcallargs(func, *positional, **named)] of the standard
    library, for functions without keyword-only parameters (the only ones
    [getargspec] accepts).  All failures are [TypeError]. *)
Definition getcallargs (sp : argspec) (positional : list value) (named : dict)
  : outcome dict :=
  let num_pos := length positional in
  let num_args := length (args sp) in
  let num_defaults := length (defaults sp) in
  let n := Nat.min num_pos num_args in
  (* for i in range(n): arg2value[args[i]] = positional[i] *)
  let a2v : dict := list_to_map (zip (take n (args sp)) positional) in
  (* if varargs: arg2value[varargs] = tuple(positional[n:]) *)
  let a2v : dict :=
    match varargs sp with
    | Some va => <[va := VTuple (drop n positional)]> a2v
    | None => a2v
    end in
  (* keywords naming a positional parameter, and the other ones *)
  let known : dict := filter (λ kv, kv.1 ∈ args sp) named in
  let extra : dict := filter (λ kv, kv.1 ∉ args sp) named in
  (* if varkw: arg2value[varkw] = {} ... arg2value[varkw][kw] = value *)
  let a2v : dict :=
    match varkw sp with
    | Some vk => <[vk := VDict extra]> a2v
    | None => a2v
    end in
  if bool_decide (dom extra ≠ ∅ ∧ varkw sp = None) then
    Raise TypeError                (* unexpected keyword argument *)
  else if bool_decide (dom known ∩ dom a2v ≠ ∅) then
    Raise TypeError                (* multiple values for argument *)
  else
    let a2v : dict := known ∪ a2v in
    if bool_decide (num_args < num_pos ∧ varargs sp = None) then
      Raise TypeError              (* too many positional arguments *)
    else if bool_decide (num_pos < num_args) then
      let req := take (num_args - num_defaults) (args sp) in
      if bool_decide (Forall (λ arg, arg ∈ dom a2v) req) then
        (* fill in the defaults of the parameters still unassigned *)
        let dflt : dict :=
          list_to_map (zip (drop (num_args - num_defaults) (args sp))
                           (defaults sp)) in
        Ret (a2v ∪ dflt)
      else
        Raise TypeError            (* missing required arguments *)
    else
      Ret a2v.

(** ** Effects: a world, an event log, and raising

    User callables (the wrapped function and the observers) act on an
    arbitrary world [W].  The dispatcher appends an [event] to the log each
    time it runs the wrapped function or calls a receiver, so that the order
    and the number of calls can be stated. *)

Inductive event : Type :=
  | Notified (signal : string) (receiver : nat) (sender : value) (kw : dict)
  | Invoked (fn : nat) (positional : list value) (named : dict).


Definition notified_on (name : string) (e : event) : bool :=
  match e with
  | Notified s _ _ _ => bool_decide (s = name)
  | Invoked _ _ _ => false
  end.


Section Signals.
Context {W : Type}.

Definition state : Type := W * list event.
Definition M (A : Type) : Type := state → outcome A * state.

Definition ret {A} (a : A) : M A := λ st, (Ret a, st).
Definition raise {A} (e : exn) : M A := λ st, (Raise e, st).
Definition bind {A B} (c : M A) (k : A → M B) : M B := λ st,
  match c st with
  | (Ret a, st') => k a st'
  | (Raise e, st') => (Raise e, st')
  end.
Definition lift {A} (o : outcome A) : M A := λ st, (o, st).

Notation "'do' x <- c ;; k" := (bind c (λ x, k))
  (at level 10, x name, c at level 99, k at level 200, only parsing).
Notation "'run' c ;; k" := (bind c (λ _, k))
  (at level 10, c at level 99, k at level 200, only parsing).

(** A Python function object: identity, [__name__], [__module__], its
    argument specification, and its body as a transition on the world,
    taking the parameters already bound. *)
Record pyfunc : Type := PyFunc {
  fn_id : nat;
  fn_name : string;
  fn_module : string;
  fn_spec : argspec;
  fn_body : dict → W → outcome value * W
}.

(** The call [fn( *a, **kw )]: binding the arguments may raise [TypeError];
    when it succeeds the body runs and the invocation is logged. *)
Definition call (fn : pyfunc) (a : list value) (kw : dict) : M value :=
  λ '(w, t),
    match getcallargs (fn_spec fn) a kw with
    | Raise e => (Raise e, (w, t))
    | Ret bound =>
        let '(o, w') := fn_body fn bound w in
        (o, (w', t ++ [Invoked (fn_id fn) a kw]))
    end.

(** *** The dispatch library (blinker)

    A receiver is a callable invoked as [receiver(sender, **kwargs)].  A
    [Signal] holds its receivers, each connected at most once (they are keyed
    by identity); a [Namespace] is a dictionary from names to signals.  Only
    connections for any sender ([connect(receiver)]) are modelled, and
    receivers do not connect or disconnect anything while they run.

    The library calls the receivers in the iteration order of a set of
    identities, which need not be the order of connection.  The list kept
    for a signal is the order of the calls; [connect] puts a new receiver at
    the end only for definiteness.  Statements about several receivers are
    made for an arbitrary store, hence for every order of the calls, and
    none of them relies on where [connect] puts a receiver. *)
Record receiver : Type := Receiver {
  rc_id : nat;
  rc_run : value → dict → W → outcome value * W
}.

Abbreviation namespace := (gmap string (list receiver)).

(** [Namespace.signal(name)]: the signal called [name], created on first use. *)
Definition signal (name : string) (ns : namespace) : namespace :=
  match ns !! name with
  | Some _ => ns
  | None => <[name := []]> ns
  end.

Definition receivers (name : string) (ns : namespace) : list receiver :=
  default [] (ns !! name).

(** [Signal.connect(receiver)] *)
Definition connect (r : receiver) (rs : list receiver) : list receiver :=
  if bool_decide (rc_id r ∈ map rc_id rs) then rs else rs ++ [r].

(** Calling the receivers one after the other; nothing is caught. *)
Fixpoint notify (name : string) (rs : list receiver) (sender : value)
    (kw : dict) : M unit :=
  match rs with
  | [] => ret tt
  | r :: rs' =>
      λ '(w, t),
        let '(o, w') := rc_run r sender kw w in
        let st' := (w', t ++ [Notified name (rc_id r) sender kw]) in
        match o with
        | Ret _ => notify name rs' sender kw st'
        | Raise e => (Raise e, st')
        end
  end.

(** [Signal.send] with [*sender, **kwargs]: no positional argument means
    sender [None], more than one is a [TypeError]. *)
Definition signal_send (ns : namespace) (name : string) (sender : list value)
    (kw : dict) : M unit :=
  match sender with
  | [] => notify name (receivers name ns) VNone kw
  | [s] => notify name (receivers name ns) s kw
  | _ => raise TypeError
  end.

(** *** [emit_signal]

    Namespace objects live in a store and are referred to by their address;
    address [0] holds the module-level [__signals_namespace]. *)
Abbreviation store := (gmap nat namespace).

Definition global_namespace : nat := 0.

Definition ns_at (σ : store) (n : nat) : namespace := default ∅ (σ !! n).

(** Truth value of a [Namespace], which is a dictionary. *)
Definition ns_truthy (ns : namespace) : bool := negb (bool_decide (dom ns = ∅)).

Definition str_truthy (s : string) : bool := negb (bool_decide (s = "")).

(** [if not namespace: namespace = __signals_namespace] *)
Definition pick_namespace (namespace : option nat) (σ : store) : nat :=
  match namespace with
  | Some n => if ns_truthy (ns_at σ n) then n else global_namespace
  | None => global_namespace
  end.

(** The name computed by [decorator] when no sender is given; [caller] is
    [inspect.currentframe().f_back.f_code.co_name], the name of the code
    object that applies the decorator. *)
Definition default_fname (fn : pyfunc) (caller : string) : string :=
  let fnargs := args (fn_spec fn) in
  let fname := fn_module fn in
  let fname :=
    if bool_decide ("self" ∈ fnargs ∨ "cls" ∈ fnargs)
    then fname +:+ "_" +:+ caller
    else fname in
  fname +:+ "__" +:+ fn_name fn.

Definition derive_fname (sender : option string) (fn : pyfunc)
    (caller : string) : string :=
  match sender with
  | Some s => if str_truthy s then s else default_fname fn caller
  | None => default_fname fn caller
  end.

(** What [decorator] returns: the wrapped function together with the
    variables its closures [send] and [wrapper] capture. *)
Record emitter : Type := Emitter {
  em_fn : pyfunc;
  em_fname : string;
  em_namespace : nat
}.

Definition pre_name (fname : string) : string := "pre_" +:+ fname.
Definition post_name (fname : string) : string := "post_" +:+ fname.

Definition with_ns (σ : store) (n : nat) (f : namespace → namespace) : store :=
  <[n := f (ns_at σ n)]> σ.

Definition decorator (sender : option string) (namespace : nat)
    (fn : pyfunc) (caller : string) (σ : store) : emitter * store :=
  let fname := derive_fname sender fn caller in
  (* fn.pre = namespace.signal('pre_%s' % fname) *)
  let σ := with_ns σ namespace (signal (pre_name fname)) in
  (* fn.post = namespace.signal('post_%s' % fname) *)
  let σ := with_ns σ namespace (signal (post_name fname)) in
  (Emitter fn fname namespace, σ).

Definition emit_signal (sender : option string) (namespace : option nat)
    (fn : pyfunc) (caller : string) (σ : store) : emitter * store :=
  decorator sender (pick_namespace namespace σ) fn caller σ.

(** [em.pre.connect(r)], [em.post.connect(r)] and the alias [em.observe(r)]. *)
Definition connect_pre (em : emitter) (r : receiver) (σ : store) : store :=
  with_ns σ (em_namespace em) (alter (connect r) (pre_name (em_fname em))).

Definition connect_post (em : emitter) (r : receiver) (σ : store) : store :=
  with_ns σ (em_namespace em) (alter (connect r) (post_name (em_fname em))).

Definition observe := connect_post.

(** The dictionary [sendkw] built by [send] from the updated [kw]. *)
Definition make_sendkw (fn : pyfunc) (kw : dict) : dict :=
  <["kwargs" := VDict (filter (λ kv, kv.1 ∈ dom kw) kw)]>
  (<["sender" := VStr (fn_name fn)]>
  (<["emitter" :=
       default (default (VFn (fn_id fn)) (kw !! "cls")) (kw !! "self")]>
   ∅)).

(** The inner [send], declared as [send(action, *a, **kw)] and called by
    the wrapper as [send('pre', *args, **kwargs)]: the first positional
    argument is [action], so a keyword of that name is a second value for
    the same parameter and the call raises [TypeError]. *)
Definition send (σ : store) (em : emitter) (action : string)
    (a : list value) (kw : dict) : M unit :=
  if bool_decide ("action" ∈ dom kw) then raise TypeError else
  let fn := em_fn em in
  let sig_name := action +:+ "_" +:+ em_fname em in
  (* result = kw.pop("result", None) *)
  let result := default VNone (kw !! "result") in
  let kw := delete "result" kw in
  (* kw.update(inspect.getcallargs(fn, *a, **kw)) *)
  do callargs <- lift (getcallargs (fn_spec fn) a kw) ;;
  let kw : dict := callargs ∪ kw in
  let sendkw : dict := make_sendkw fn kw in
  if bool_decide (action = "post")
  then signal_send (ns_at σ (em_namespace em)) sig_name [result] sendkw
  else signal_send (ns_at σ (em_namespace em)) sig_name [] sendkw.

(** The returned [wrapper], called with [*args, **kwargs]. *)
Definition wrapper (σ : store) (em : emitter) (args : list value)
    (kwargs : dict) : M value :=
  run send σ em "pre" args kwargs ;;
  do result <- call (em_fn em) args kwargs ;;
  let kwargs := <["result" := result]> kwargs in
  run send σ em "post" args kwargs ;;
  ret result.

(** *** Vocabulary for the statements *)

(** A receiver that returns normally, or raises [e], whatever it is given. *)
Definition always_returns (r : receiver) : Prop :=
  ∀ s kw w, ∃ v w', rc_run r s kw w = (Ret v, w').


(** The log entries of calling each of [rs] once, in order. *)
Definition notifications (name : string) (rs : list receiver) (sender : value)
    (kw : dict) : list event :=
  map (λ r, Notified name (rc_id r) sender kw) rs.

(** The receivers on the two channels of an emitter. *)
Definition pre_receivers (σ : store) (em : emitter) : list receiver :=
  receivers (pre_name (em_fname em)) (ns_at σ (em_namespace em)).

Definition post_receivers (σ : store) (em : emitter) : list receiver :=
  receivers (post_name (em_fname em)) (ns_at σ (em_namespace em)).

End Signals.

Abbreviation store_of W := (gmap nat (gmap string (list (@receiver W)))).

(** ** Session flash data

    The Flask [session] is a dictionary. *)

Definition set_flash_data (data : value) (session : dict) : dict :=
  <["_flash_data" := data]> session.

(** [session.pop("_flash_data", None)]: the value and the session left. *)
Definition get_flashed_data (session : dict) : value * dict :=
  (default VNone (session !! "_flash_data"), delete "_flash_data" session).

(** Repeated reads of the flash data, threading the session. *)
Fixpoint get_flashed_data_n (n : nat) (session : dict) : list value * dict :=
  match n with
  | O => ([], session)
  | S n' =>
      let '(v, session') := get_flashed_data session in
      let '(vs, session'') := get_flashed_data_n n' session' in
      (v :: vs, session'')
  end.

(** ** Storage upload

    The application configuration maps a key to a table of named property
    sets.  [storage.upload] belongs to the storage extension.  The function
    ends with [signals.upload_file(...)], and no statement of either file
    binds the global name [signals]: [signals] below is what the module
    finds under that name when the function runs, [None] as the files stand
    (evaluating the name raises [NameError]) and [Some s] once something
    has put a module with an [upload_file] there. *)

Abbreviation config := (gmap string (gmap string dict)).

Section Storage.
Context {W : Type}.
Variable storage_upload : value → dict → W → outcome value * W.
Variable signals : option ((W → outcome value * W) → @M W value).

Definition signals_upload_file (change : W → outcome value * W)
  : @M W value :=
  match signals with
  | Some upload => upload change
  | None => raise NameError
  end.

Definition upload_kwargs (props : dict) (kw : dict) : dict :=
  let kwargs : dict := ∅ in
  let kwargs := props ∪ kwargs in       (* kwargs.update(conf.get(_props_key)) *)
  kw ∪ kwargs.                          (* kwargs.update(kw) *)

(** [def upload_file(_props_key, file, **kw)] *)
Definition upload_file (cfg : config) (_props_key : option string)
    (file : value) (kw : dict) : @M W value :=
  match _props_key with
  | Some key =>
      match cfg !! "STORAGE_UPLOAD_FILE_PROPS" with
      | None => raise (ValueError "Missing STORAGE_UPLOAD_FILE_PROPS in config")
      | Some conf =>
          if bool_decide (dom conf = ∅) then      (* if not conf *)
            raise (ValueError "Missing STORAGE_UPLOAD_FILE_PROPS in config")
          else
            match conf !! key with
            | None =>
                raise (ValueError ("Missing '" +:+ key +:+
                                   "' in config STORAGE_UPLOAD_FILE_PROPS"))
            | Some props =>
                signals_upload_file
                  (storage_upload file (upload_kwargs props kw))
            end
      end
  | None =>
      signals_upload_file (storage_upload file (kw ∪ ∅))
  end.

End Storage.

(** The emitters defined after [emit_signal] in asm.py,
    [upload_file(change)] and [send_mail(change, **kwargs)]; both bodies
    are [return change()].  [call_value] calls a callable value without
    arguments. *)
Definition upload_file_emitter {W} (module : string) (id : nat)
    (call_value : value → W → outcome value * W) : @pyfunc W :=
  PyFunc id "upload_file" module (ArgSpec ["change"] None None [])
         (λ bound w, call_value (default VNone (bound !! "change")) w).

Definition send_mail_emitter {W} (module : string) (id : nat)
    (call_value : value → W → outcome value * W) : @pyfunc W :=
  PyFunc id "send_mail" module (ArgSpec ["change"] None (Some "kwargs") [])
         (λ bound w, call_value (default VNone (bound !! "change")) w).

(** In asm.py these later definitions rebind the module-level names: once
    the module is imported, [upload_file] and [send_mail] are the wrappers
    of the emitters. *)
Definition asm_upload_file {W} (σ : store_of W) (module : string) (id : nat)
    (call_value : value → W → outcome value * W)
    (args : list value) (kwargs : dict) : @M W value :=
  wrapper σ (emit_signal None None (upload_file_emitter module id call_value)
               "<module>" σ).1 args kwargs.

Definition asm_send_mail {W} (σ : store_of W) (module : string) (id : nat)
    (call_value : value → W → outcome value * W)
    (args : list value) (kwargs : dict) : @M W value :=
  wrapper σ (emit_signal None None (send_mail_emitter module id call_value)
               "<module>" σ).1 args kwargs.

(** ** Signed tokens

    Strings are split the way [str.split] and [str.rsplit] do. *)

Definition dot : ascii := "."%char.

Fixpoint split (sep : ascii) (s : string) : list string :=
  match s with
  | EmptyString => [EmptyString]
  | String c s' =>
      if Ascii.eqb c sep then EmptyString :: split sep s'
      else match split sep s' with
           | h :: t => String c h :: t
           | [] => [String c EmptyString]
           end
  end.

(** [s.rsplit(sep, 1)] when [sep] occurs in [s]. *)
Fixpoint rsplit1 (sep : ascii) (s : string) : option (string * string) :=
  match s with
  | EmptyString => None
  | String c s' =>
      match rsplit1 sep s' with
      | Some (a, b) => Some (String c a, b)
      | None => if Ascii.eqb c sep then Some (EmptyString, s') else None
      end
  end.

Fixpoint no_dot (s : string) : bool :=
  match s with
  | EmptyString => true
  | String c s' => negb (Ascii.eqb c dot) && no_dot s'
  end.

(** [".".join(l)] *)
Fixpoint join_dots (l : list string) : string :=
  match l with
  | [] => EmptyString
  | [s] => s
  | s :: l' => s +:+ "." +:+ join_dots l'
  end.

(** Exactly three dot-separated segments. *)
Definition three_segments (token : string) : Prop :=
  ∃ a b c, token = a +:+ "." +:+ b +:+ "." +:+ c
           ∧ no_dot a = true ∧ no_dot b = true ∧ no_dot c = true.

(** A naive datetime is the reading of a wall clock, counted here in
    microseconds; [now] is the reading [datetime.utcnow()] returns.
    Timestamps inside tokens are whole seconds. *)
Definition second : Z := 1000000.

(** The wall-clock readings, in seconds, that a [datetime] can hold: from
    year 1 to the last second of year 9999.  Outside of it the addition in
    [get_timestamp] raises [OverflowError]. *)
Definition datetime_min : Z := -62135596800.
Definition datetime_max : Z := 253402300799.

Definition in_datetime_range (x : Z) : Prop :=
  (datetime_min ≤ x ≤ datetime_max)%Z.

Section Signing.
Context {data : Type}.
(** The signing library with the module's secret key and salt:
    [dump_payload]/[load_payload] are those of the URL-safe serializers,
    [signature] is [Signer.get_signature], [verify_signature] is
    [Signer.verify_signature], [encode_ts]/[decode_ts] are the base64 coding
    of the integer timestamp. *)
Variable dump_payload : data → string.
Variable load_payload : string → option data.
Variable signature : string → string.
Variable verify_signature : string → string → bool.
Variable encode_ts : Z → string.
Variable decode_ts : string → option Z.
(** Local time, as [datetime] gets it from the C library.
    [local_to_timestamp x] is [int(dt.strftime("%s"))] for the naive
    datetime [dt] whose wall clock reads [x] seconds: the reading is taken
    as local time, whatever clock it came from.  [fromtimestamp ts] is
    [datetime.fromtimestamp(ts)], the wall clock of local time in seconds,
    or the exception raised when [ts] is out of range. *)
Variable local_to_timestamp : Z → Z.
Variable fromtimestamp : Z → outcome Z.

(** [Signer.sign] and [Signer.unsign] *)
Definition Signer_sign (value : string) : string :=
  value +:+ "." +:+ signature value.

Definition Signer_unsign (signed : string) : outcome string :=
  match rsplit1 dot signed with
  | None => Raise BadSignature
  | Some (value, sig) =>
      if verify_signature value sig then Ret value
      else Raise BadSignature
  end.

(** [URLSafeSerializer.dumps] and [.loads] *)
Definition URLSafeSerializer_dumps (d : data) : string :=
  Signer_sign (dump_payload d).

Definition URLSafeSerializer_loads (token : string) : outcome data :=
  match Signer_unsign token with
  | Raise e => Raise e
  | Ret payload =>
      match load_payload payload with
      | Some d => Ret d
      | None => Raise BadPayload
      end
  end.

(** [TimestampSigner2.get_timestamp]: the naive value of [utcnow()] plus
    [expires_in] seconds, formatted with ["%s"], which drops the
    microseconds and reads the value as local time. *)
Definition get_timestamp (expires_in : Z) (now : Z) : Z :=
  local_to_timestamp ((now + expires_in * second) / second).

(** [TimestampSigner2.timestamp_to_datetime]: [datetime.fromtimestamp(ts)] *)
Definition timestamp_to_datetime (ts : Z) : outcome Z :=
  match fromtimestamp ts with
  | Ret x => Ret (x * second)%Z
  | Raise e => Raise e
  end.

(** [TimestampSigner.sign] *)
Definition TimestampSigner2_sign (expires_in : Z) (now : Z) (value : string)
  : string :=
  let timestamp := encode_ts (get_timestamp expires_in now) in
  let value := value +:+ "." +:+ timestamp in
  value +:+ "." +:+ signature value.

(** [TimestampSigner.unsign(value, max_age=None, return_timestamp=True)],
    as in the releases of the library that still have the JSON web
    signature serializer used next to it (0.24 to 1.1): on a bad signature
    the timestamp is not converted. *)
Definition TimestampSigner2_unsign (signed : string) : outcome (string * Z) :=
  let '(result, sig_error) :=
    match rsplit1 dot signed with
    | None => (EmptyString, true)
    | Some (value, sig) =>
        (value, negb (verify_signature value sig))
    end in
  match rsplit1 dot result with
  | None => if sig_error then Raise BadSignature else Raise BadTimeSignature
  | Some (value, timestamp) =>
      if sig_error then Raise BadTimeSignature
      else match decode_ts timestamp with
           | None => Raise BadTimeSignature
           | Some ts =>
               match timestamp_to_datetime ts with
               | Ret dt => Ret (value, dt)
               | Raise e => Raise e
               end
           end
  end.

Definition URLSafeTimedSerializer2_dumps (expires_in : Z) (now : Z) (d : data)
  : string :=
  TimestampSigner2_sign expires_in now (dump_payload d).

(** [URLSafeTimedSerializer.loads(s, max_age=None, return_timestamp=True)] *)
Definition URLSafeTimedSerializer2_loads (token : string)
  : outcome (data * Z) :=
  match TimestampSigner2_unsign token with
  | Raise e => Raise e
  | Ret (base64d, timestamp) =>
      match load_payload base64d with
      | Some d => Ret (d, timestamp)
      | None => Raise BadPayload
      end
  end.

(** [sign_data(data, expires_in=None)] of asm.py; [expires_in] is in
    minutes, and the expiry is [in_datetime_range] (or the call raises
    [OverflowError] instead of returning a token).  (The copy in
    Flasik, [sign_url_safe], has the same text, but that file never
    imports [datetime]: there the branch with a duration raises
    [NameError] in [get_timestamp].) *)
Definition sign_data (d : data) (expires_in : option Z) (now : Z) : string :=
  match expires_in with
  | Some m =>
      if bool_decide (m ≠ 0)%Z
      then URLSafeTimedSerializer2_dumps (m * 60) now d
      else URLSafeSerializer_dumps d
  | None => URLSafeSerializer_dumps d
  end.

(** [unsign_data(token)] of asm.py.  (In Flasik's [unsign_url_safe] the
    timed branch raises [NameError] for want of [datetime]; the choice of
    the branch is the same.) *)
Definition unsign_data (token : string) (now : Z) : outcome data :=
  if bool_decide (length (split dot token) = 3) then
    match URLSafeTimedSerializer2_loads token with
    | Raise e => Raise e
    | Ret (value, timestamp) =>
        if bool_decide (timestamp > now)%Z then Ret value
        else Raise SignatureExpired
    end
  else
    URLSafeSerializer_loads token.

End Signing.

(** ** Concrete callables, observers and codec

    Small instances on which the definitions above are run. *)

(** An observer that returns [None], and one that raises. *)
Definition observer_ok (id : nat) : @receiver unit :=
  Receiver id (λ _ _ w, (Ret VNone, w)).


Definition returns_param (name : string) : dict → unit → outcome value * unit :=
  λ bound w, (Ret (default VNone (bound !! name)), w).

(** [def f(result): return result], in module [pkg.mod] *)
Definition f_result : @pyfunc unit :=
  PyFunc 1 "f" "pkg.mod" (ArgSpec ["result"] None None [])
         (returns_param "result").

(** [def f(a, result=None): return result] *)
Definition f_a_result : @pyfunc unit :=
  PyFunc 1 "f" "pkg.mod" (ArgSpec ["a"; "result"] None None [VNone])
         (returns_param "result").

(** [def f(a, b): return a] *)
Definition f_a_b : @pyfunc unit :=
  PyFunc 1 "f" "pkg.mod" (ArgSpec ["a"; "b"] None None [])
         (returns_param "a").


(** [def foo(): return None] and [def bar(self): return None] *)
Definition foo : @pyfunc unit :=
  PyFunc 2 "foo" "pkg.mod" (ArgSpec [] None None []) (λ _ w, (Ret VNone, w)).

Definition bar : @pyfunc unit :=
  PyFunc 3 "bar" "pkg.mod" (ArgSpec ["self"] None None [])
         (λ _ w, (Ret VNone, w)).

(** [fn] decorated with [@emit_signal()] at module level in a fresh process,
    then [p] connected to [pre] and [q] to [post]. *)
Definition observed {W} (fn : @pyfunc W) (p q : @receiver W)
  : @emitter W * store_of W :=
  let '(em, σ) := emit_signal None None fn "<module>" ∅ in
  (em, connect_post em q (connect_pre em p σ)).

(** A codec with the shape of the URL-safe one: the payload of a number is
    a letter followed by that many marks, prefixed with a dot when it is
    long enough to be compressed; signatures and timestamps are dot-free. *)
Fixpoint marks (c : ascii) (n : nat) : string :=
  match n with
  | O => EmptyString
  | S n' => String c (marks c n')
  end.

Fixpoint count_marks (c : ascii) (s : string) : option nat :=
  match s with
  | EmptyString => Some 0
  | String x s' => if Ascii.eqb x c then S <$> count_marks c s' else None
  end.

Definition toy_dump (n : nat) : string :=
  (if bool_decide (3 < n) then "." else "") +:+ "j" +:+ marks "x" n.

Definition toy_load (s : string) : option nat :=
  let s := match s with
           | String c s' => if Ascii.eqb c dot then s' else s
           | EmptyString => s
           end in
  match s with
  | String c s' => if Ascii.eqb c "j" then count_marks "x" s' else None
  | EmptyString => None
  end.

Definition toy_signature (v : string) : string :=
  "s" +:+ marks "g" (String.length v).

Definition toy_verify (v sig : string) : bool :=
  String.eqb sig (toy_signature v).

Definition toy_encode_ts (z : Z) : string := marks "t" (Z.to_nat z).

Definition toy_decode_ts (s : string) : option Z :=
  Z.of_nat <$> count_marks "t" s.

(** Local time five hours ahead of UTC, without clock changes. *)
Definition toy_local_to_timestamp (x : Z) : Z := (x - 18000)%Z.

Definition toy_fromtimestamp (ts : Z) : outcome Z := Ret (ts + 18000)%Z.

(** A configuration with the profile of the docstring, and a storage whose
    [upload] returns the keyword arguments it was given. *)
Definition profile_image : dict :=
  <["prefix" := VStr "/profile-image/"]> {["public" := VBool true]}.

Definition cfg_profiles : config :=
  {["STORAGE_UPLOAD_FILE_PROPS" := {["profile-image" := profile_image]}]}.

Definition echo_upload (file : value) (kwargs : dict) (w : unit)
  : outcome value * unit :=
  (Ret (VDict kwargs), w).

(** ** Further helpers of the two modules *)

(** Truth value of a Python value, as tested by [if v:] and [not v]. *)
Definition truthy (v : value) : bool :=
  match v with
  | VNone => false
  | VBool b => b
  | VInt z => negb (bool_decide (z = 0%Z))
  | VStr s => negb (bool_decide (s = ""))
  | VTuple l => negb (bool_decide (length l = 0))
  | VDict d => negb (bool_decide (dom d = ∅))
  | VFn _ => true
  | VObj _ => true
  end.

(** [setup(app)] of Flasik: registers the [format_datetime] filter and
    logs a warning for each listed key without a true value in the
    configuration.  The result is the new filter table and the warnings. *)
Definition check_config_keys : list string :=
  ["SECRET_KEY"; "ADMIN_EMAIL"; "CONTACT_EMAIL"; "MAIL_URL"; "MAIL_SENDER";
   "DB_URL"; "DATETIME_TIMEZONE"; "DATETIME_FORMAT"; "RECAPTCHA_SITE_KEY";
   "RECAPTCHA_SECRET_KEY"].

Definition missing_key_msg (k : string) : string :=
  "Missing config key value: " +:+ k +:+ " ".

Definition key_unset (app_config : dict) (k : string) : bool :=
  (* k not in app.config or not app.config.get(k) *)
  negb (bool_decide (k ∈ dom app_config))
  || negb (truthy (default VNone (app_config !! k))).

Fixpoint config_warnings (app_config : dict) (keys : list string)
  : list string :=
  match keys with
  | [] => []
  | k :: keys' =>
      if key_unset app_config k
      then missing_key_msg k :: config_warnings app_config keys'
      else config_warnings app_config keys'
  end.

Definition setup (filters : dict) (format_datetime : value) (app_config : dict)
  : dict * list string :=
  (<["format_datetime" := format_datetime]> filters,
   config_warnings app_config check_config_keys).

(** Flasik's [sign_data] and [unsign_data], on the plain
    [itsdangerous.Serializer]: the payload is the serialized text itself.
    [signature] and [verify_signature] depend on the secret key and salt. *)
Module Flasik.
Section PlainSigning.
Context {data : Type}.
Variable dump_text : data → string.
Variable load_text : string → option data.
Variable signature : value → value → string → string.
Variable verify_signature : value → value → string → string → bool.

Definition Serializer_dumps (secret_key salt : value) (d : data) : string :=
  Signer_sign (signature secret_key salt) (dump_text d).

Definition Serializer_loads (secret_key salt : value) (token : string)
  : outcome data :=
  match Signer_unsign (verify_signature secret_key salt) token with
  | Raise e => Raise e
  | Ret payload =>
      match load_text payload with
      | Some d => Ret d
      | None => Raise BadPayload
      end
  end.

(** [sign_data(data, secret_key, expires_in=None, salt=None)]: the branch
    for a true [expires_in] is [pass], so the call returns [None]. *)
Definition sign_data (d : data) (secret_key expires_in salt : value)
  : option string :=
  if truthy expires_in then None
  else Some (Serializer_dumps secret_key salt d).

Definition unsign_data (token : string) (secret_key salt : value)
  : outcome data :=
  Serializer_loads secret_key salt token.

End PlainSigning.
End Flasik.

(** * Properties *)

(** ** Splitting strings *)

Lemma append_assoc (a b c : string) : (a +:+ b) +:+ c = a +:+ b +:+ c.
Proof.
  induction a as [|x a IH]; [done|].
  change (String x ((a +:+ b) +:+ c) = String x (a +:+ b +:+ c)).
  by rewrite IH.
Qed.

Lemma split_nonempty sep s : split sep s ≠ [].
Proof.
  destruct s as [|c s]; simpl; [done|].
  destruct (Ascii.eqb c sep); [done|].
  by destruct (split sep s).
Qed.

Lemma eqb_dot_true c : Ascii.eqb c dot = true → c = dot.
Proof. apply Ascii.eqb_eq. Qed.

Lemma split_no_dot s : no_dot s = true → split dot s = [s].
Proof.
  induction s as [|c s IH]; simpl; [done|].
  intros [Hc Hs]%andb_true_iff.
  apply negb_true_iff in Hc. rewrite Hc, (IH Hs). done.
Qed.

Lemma split_app_dot a b :
  no_dot a = true → split dot (a +:+ "." +:+ b) = a :: split dot b.
Proof.
  induction a as [|c a IH]; simpl; [done|].
  intros [Hc Ha]%andb_true_iff.
  apply negb_true_iff in Hc. rewrite Hc, (IH Ha). done.
Qed.

Lemma split_join s :
  join_dots (split dot s) = s ∧ Forall (λ x, no_dot x = true) (split dot s).
Proof.
  induction s as [|c s [IHj IHf]]; simpl.
  - split; [done|]. by repeat constructor.
  - destruct (Ascii.eqb c dot) eqn:Hc.
    + apply eqb_dot_true in Hc as ->. split.
      * pose proof (split_nonempty dot s) as Hne.
        destruct (split dot s) as [|h t] eqn:E; [done|].
        change (join_dots (EmptyString :: h :: t))
          with (EmptyString +:+ "." +:+ join_dots (h :: t)).
        by rewrite IHj.
      * by constructor.
    + pose proof (split_nonempty dot s) as Hne.
      destruct (split dot s) as [|h t] eqn:E; [done|].
      apply Forall_cons in IHf as [Hh Ht]. split.
      * destruct t as [|h' t]; simpl in *; by rewrite <- IHj.
      * constructor; [|done]. simpl. by rewrite Hc, Hh.
Qed.

Lemma three_segments_split token :
  length (split dot token) = 3 ↔ three_segments token.
Proof.
  split.
  - intros Hlen. destruct (split_join token) as [Hj Hf].
    destruct (split dot token) as [|a [|b [|c [|? ?]]]]; try done.
    exists a, b, c. simpl in Hj.
    apply Forall_cons in Hf as [Ha Hf].
    apply Forall_cons in Hf as [Hb Hf].
    apply Forall_cons in Hf as [Hc _]. done.
  - intros (a & b & c & -> & Ha & Hb & Hc).
    rewrite (split_app_dot a _ Ha), (split_app_dot b _ Hb), (split_no_dot c Hc).
    done.
Qed.

Lemma rsplit1_no_dot s : no_dot s = true → rsplit1 dot s = None.
Proof.
  induction s as [|c s IH]; simpl; [done|].
  intros [Hc Hs]%andb_true_iff.
  apply negb_true_iff in Hc. by rewrite (IH Hs), Hc.
Qed.

Lemma rsplit1_app_dot a b :
  no_dot b = true → rsplit1 dot (a +:+ "." +:+ b) = Some (a, b).
Proof.
  intros Hb. induction a as [|c a IH].
  - change (rsplit1 dot (String dot b) = Some (EmptyString, b)).
    cbn [rsplit1]. rewrite (rsplit1_no_dot b Hb). done.
  - change (rsplit1 dot (String c (a +:+ "." +:+ b)) = Some (String c a, b)).
    cbn [rsplit1]. by rewrite IH.
Qed.

(** ** Signed tokens *)

Section SigningProps.
Context {data : Type}.
Variable dump_payload : data → string.
Variable load_payload : string → option data.
Variable signature : string → string.
Variable verify_signature : string → string → bool.
Variable encode_ts : Z → string.
Variable decode_ts : string → option Z.
Variable local_to_timestamp : Z → Z.
Variable fromtimestamp : Z → outcome Z.

Abbreviation unsign :=
  (unsign_data load_payload verify_signature decode_ts fromtimestamp).
Abbreviation sign :=
  (sign_data dump_payload signature encode_ts local_to_timestamp).
Abbreviation timed_loads :=
  (URLSafeTimedSerializer2_loads load_payload verify_signature decode_ts
     fromtimestamp).
Abbreviation untimed_loads := (URLSafeSerializer_loads load_payload verify_signature).

Lemma untimed_loads_not_expired token :
  untimed_loads token ≠ Raise SignatureExpired.
Proof.
  unfold URLSafeSerializer_loads, Signer_unsign.
  destruct (rsplit1 dot token) as [[v sg]|]; [|done].
  destruct (verify_signature v sg); [|done].
  by destruct (load_payload v).
Qed.

(** C10: [unsign_data] picks the timed serializer, followed by the expiry
    test, exactly for the tokens made of three dot-separated segments; every
    other token goes to the untimed serializer.  Nothing but the token decides
    it; in particular [SignatureExpired] is only ever raised for a
    three-segment token. *)
Theorem unsign_data_mode_by_shape (token : string) (now : Z) :
  ((three_segments token ∧
    unsign token now =
      match timed_loads token with
      | Raise e => Raise e
      | Ret (v, timestamp) =>
          if bool_decide (timestamp > now)%Z then Ret v
          else Raise SignatureExpired
      end)
   ∨ (¬ three_segments token ∧ unsign token now = untimed_loads token))
  ∧ (unsign token now = Raise SignatureExpired → three_segments token).
Proof.
  assert (Hcase : (three_segments token ∧
    unsign token now =
      match timed_loads token with
      | Raise e => Raise e
      | Ret (v, timestamp) =>
          if bool_decide (timestamp > now)%Z then Ret v
          else Raise SignatureExpired
      end)
   ∨ (¬ three_segments token ∧ unsign token now = untimed_loads token)).
  { unfold unsign_data. case_bool_decide as Hlen.
    - left. split; [by apply three_segments_split|done].
    - right. split; [|done]. by rewrite <- three_segments_split. }
  split; [exact Hcase|].
  intros Hexp. destruct Hcase as [[H3 _]|[_ Hun]]; [done|].
  rewrite Hun in Hexp. by apply untimed_loads_not_expired in Hexp.
Qed.

Hypothesis signature_no_dot : ∀ v, no_dot (signature v) = true.
Hypothesis signature_verifies : ∀ v, verify_signature v (signature v) = true.
Hypothesis encode_ts_no_dot : ∀ z, no_dot (encode_ts z) = true.
Hypothesis decode_encode_ts :
  ∀ z, (0 ≤ z)%Z → decode_ts (encode_ts z) = Some z.
Hypothesis load_dump_payload : ∀ d, load_payload (dump_payload d) = Some d.

Lemma Signer_unsign_sign v :
  Signer_unsign verify_signature (Signer_sign signature v) = Ret v.
Proof.
  unfold Signer_unsign, Signer_sign.
  rewrite rsplit1_app_dot by apply signature_no_dot.
  by rewrite signature_verifies.
Qed.

(** Without expiry, data whose payload is not compressed (no leading dot)
    comes back unchanged. *)
Lemma unsign_sign_plain d now now' :
  no_dot (dump_payload d) = true →
  unsign (sign d None now) now' = Ret d.
Proof.
  intros Hp. unfold unsign_data, sign_data, URLSafeSerializer_dumps.
  unfold Signer_sign.
  rewrite (split_app_dot (dump_payload d)) by done.
  rewrite split_no_dot by apply signature_no_dot.
  rewrite bool_decide_eq_false_2 by done.
  unfold URLSafeSerializer_loads.
  change (dump_payload d +:+ "." +:+ signature (dump_payload d))
    with (Signer_sign signature (dump_payload d)).
  by rewrite Signer_unsign_sign, load_dump_payload.
Qed.

Lemma timed_loads_dumps d secs now :
  no_dot (dump_payload d) = true →
  (0 ≤ get_timestamp local_to_timestamp secs now)%Z →
  timed_loads (URLSafeTimedSerializer2_dumps dump_payload signature encode_ts
                 local_to_timestamp secs now d)
  = match timestamp_to_datetime fromtimestamp
            (get_timestamp local_to_timestamp secs now) with
    | Ret dt => Ret (d, dt)
    | Raise e => Raise e
    end.
Proof.
  intros Hp Hpos.
  unfold URLSafeTimedSerializer2_loads, URLSafeTimedSerializer2_dumps.
  unfold TimestampSigner2_unsign, TimestampSigner2_sign.
  rewrite rsplit1_app_dot by apply signature_no_dot.
  rewrite signature_verifies. cbn [negb].
  rewrite rsplit1_app_dot by apply encode_ts_no_dot.
  rewrite decode_encode_ts by done.
  destruct (timestamp_to_datetime _ _); [|done].
  by rewrite load_dump_payload.
Qed.

(** With an expiry of [m] minutes, signed when the clock reads [now], the
    token holds the timestamp of the whole second [x] reached [m] minutes
    later.  When local time gives that reading back (no clock change falls
    on it), [unsign_data] returns the data while the clock is before [x]
    and raises [SignatureExpired] from then on. *)
Lemma unsign_sign_timed d m now now' :
  no_dot (dump_payload d) = true →
  m ≠ 0%Z →
  let x := ((now + m * 60 * second) / second)%Z in
  (0 ≤ local_to_timestamp x)%Z →
  fromtimestamp (local_to_timestamp x) = Ret x →
  unsign (sign d (Some m) now) now'
  = if bool_decide (x * second > now')%Z
    then Ret d else Raise SignatureExpired.
Proof.
  intros Hp Hm x Hpos Hlocal. unfold unsign_data, sign_data.
  rewrite (bool_decide_eq_true_2 (m ≠ 0)%Z) by done.
  rewrite timed_loads_dumps by done.
  unfold URLSafeTimedSerializer2_dumps, TimestampSigner2_sign.
  rewrite !append_assoc.
  rewrite (split_app_dot (dump_payload d)) by done.
  rewrite (split_app_dot (encode_ts _)) by apply encode_ts_no_dot.
  rewrite split_no_dot by apply signature_no_dot.
  rewrite bool_decide_eq_true_2 by done.
  unfold timestamp_to_datetime, get_timestamp. fold x. by rewrite Hlocal.
Qed.

Lemma expiry_second_bounds secs now :
  (now + secs * second - second < (now + secs * second) / second * second
   ≤ now + secs * second)%Z.
Proof.
  unfold second.
  pose proof (Z.mul_div_le (now + secs * 1000000) 1000000) as H1.
  pose proof (Z.mul_succ_div_gt (now + secs * 1000000) 1000000) as H2.
  lia.
Qed.

(** X17: once the duration has elapsed, a timed token of asm.py with an
    uncompressed payload is rejected as expired, provided the expiry is a
    reading a [datetime] can hold and local time gives that reading back. *)
Lemma unsign_after_expiry d m now now' :
  no_dot (dump_payload d) = true →
  m ≠ 0%Z →
  let x := ((now + m * 60 * second) / second)%Z in
  in_datetime_range x →
  (0 ≤ local_to_timestamp x)%Z →
  fromtimestamp (local_to_timestamp x) = Ret x →
  (now + m * 60 * second ≤ now')%Z →
  unsign (sign d (Some m) now) now' = Raise SignatureExpired.
Proof.
  intros Hp Hm x _ Hpos Hlocal Hlate.
  rewrite unsign_sign_timed by done. fold x.
  pose proof (expiry_second_bounds (m * 60) now). fold x in H.
  rewrite bool_decide_eq_false_2; [done|lia].
Qed.

(** X18: up to one second before the end of the duration, a timed token
    of asm.py with an uncompressed payload gives the data back, under the
    same conditions on the expiry and on local time. *)
Lemma unsign_before_expiry d m now now' :
  no_dot (dump_payload d) = true →
  m ≠ 0%Z →
  let x := ((now + m * 60 * second) / second)%Z in
  in_datetime_range x →
  (0 ≤ local_to_timestamp x)%Z →
  fromtimestamp (local_to_timestamp x) = Ret x →
  (now' ≤ now + m * 60 * second - second)%Z →
  unsign (sign d (Some m) now) now' = Ret d.
Proof.
  intros Hp Hm x _ Hpos Hlocal Hearly.
  rewrite unsign_sign_timed by done. fold x.
  pose proof (expiry_second_bounds (m * 60) now). fold x in H.
  rewrite bool_decide_eq_true_2; [done|lia].
Qed.

(** C7: a payload that the URL-safe serializer compressed starts with a
    dot, so the untimed token has three segments and [unsign_data] reads it
    as a timed one: the call raises instead of returning the data. *)
Theorem unsign_sign_compressed_fails d b now now' :
  dump_payload d = "." +:+ b →
  no_dot b = true →
  load_payload "" = None →
  ∃ e, unsign (sign d None now) now' = Raise e.
Proof.
  intros Hd Hb Hempty.
  unfold unsign_data, sign_data, URLSafeSerializer_dumps, Signer_sign.
  rewrite Hd.
  change (("." +:+ b) +:+ "." +:+ signature ("." +:+ b))
    with ("" +:+ "." +:+ b +:+ "." +:+ signature ("." +:+ b)).
  rewrite (split_app_dot "") by done.
  rewrite (split_app_dot b) by done.
  rewrite split_no_dot by apply signature_no_dot.
  rewrite bool_decide_eq_true_2 by done.
  unfold URLSafeTimedSerializer2_loads, TimestampSigner2_unsign.
  change ("" +:+ "." +:+ b +:+ "." +:+ signature ("." +:+ b))
    with (("." +:+ b) +:+ "." +:+ signature ("." +:+ b)).
  rewrite rsplit1_app_dot by apply signature_no_dot.
  rewrite signature_verifies. cbn [negb].
  change ("." +:+ b) with ("" +:+ "." +:+ b).
  rewrite rsplit1_app_dot by done.
  destruct (decode_ts b) as [ts|]; [|by eexists].
  destruct (timestamp_to_datetime fromtimestamp ts); [|by eexists].
  rewrite Hempty. by eexists.
Qed.

End SigningProps.

(** ** Dispatching *)



Lemma pre_post_distinct fname : pre_name fname ≠ post_name fname.
Proof. unfold pre_name, post_name. intros H. by inversion H. Qed.





Section SignalProps.
Context {W : Type}.
Implicit Types (σ : store_of W) (em : @emitter W) (fn : @pyfunc W).
Implicit Types (r p q : @receiver W) (rs before after : list (@receiver W)).
Implicit Types (w : W) (t : list event) (st : @state W).

Lemma notifications_on name rs s kw :
  Forall (λ e, notified_on name e = true) (notifications name rs s kw).
Proof.
  induction rs as [|r rs IH]; simpl; constructor; [|done].
  simpl. by apply bool_decide_eq_true.
Qed.

Lemma notifications_app name rs rs' s kw :
  notifications name (rs ++ rs') s kw
  = notifications name rs s kw ++ notifications name rs' s kw.
Proof. unfold notifications. by rewrite map_app. Qed.

(** Receivers that return are all called, in order. *)
Lemma notify_returns name rs s kw w t :
  Forall always_returns rs →
  ∃ w', notify name rs s kw (w, t)
        = (Ret tt, (w', t ++ notifications name rs s kw)).
Proof.
  intros Hrs. revert w t.
  induction Hrs as [|r rs Hr _ IH]; intros w t; simpl.
  - exists w. by rewrite app_nil_r.
  - destruct (Hr s kw w) as (v & w1 & ->).
    destruct (IH w1 (t ++ [Notified name (rc_id r) s kw])) as (w' & ->).
    exists w'. by rewrite <- app_assoc.
Qed.


(** Whatever happens, a dispatch only adds notifications of its channel. *)
Lemma notify_log name rs s kw w t :
  ∃ o w' t', notify name rs s kw (w, t) = (o, (w', t ++ t'))
             ∧ Forall (λ e, notified_on name e = true) t'.
Proof.
  revert w t. induction rs as [|r rs IH]; intros w t; simpl.
  - exists (Ret tt), w, []. by rewrite app_nil_r.
  - destruct (rc_run r s kw w) as [[v|e] w1].
    + destruct (IH w1 (t ++ [Notified name (rc_id r) s kw]))
        as (o & w' & t' & -> & Ht').
      exists o, w', (Notified name (rc_id r) s kw :: t').
      rewrite <- app_assoc. split; [done|]. constructor; [|done].
      simpl. by apply bool_decide_eq_true.
    + exists (Raise e), w1, [Notified name (rc_id r) s kw].
      split; [done|]. constructor; [|done]. simpl. by apply bool_decide_eq_true.
Qed.




Lemma filter_dom_self (kw : dict) : filter (λ kv, kv.1 ∈ dom kw) kw = kw.
Proof.
  apply map_filter_id. intros k v Hk. simpl. apply elem_of_dom. by eexists.
Qed.

(** [send] refuses a keyword named [action]; otherwise it binds the
    arguments without the [result] keyword, then notifies the receivers of
    the channel of [action]. *)
Lemma send_unfold σ em action a kw st :
  send σ em action a kw st
  = if bool_decide ("action" ∈ dom kw) then (Raise TypeError, st) else
    match getcallargs (fn_spec (em_fn em)) a (delete "result" kw) with
    | Raise e => (Raise e, st)
    | Ret bound =>
        notify (action +:+ "_" +:+ em_fname em)
          (receivers (action +:+ "_" +:+ em_fname em)
                     (ns_at σ (em_namespace em)))
          (if bool_decide (action = "post")
           then default VNone (kw !! "result") else VNone)
          (make_sendkw (em_fn em) (bound ∪ delete "result" kw)) st
    end.
Proof.
  unfold send. case_bool_decide; [done|]. unfold bind, lift.
  destruct (getcallargs _ _ _) as [bound|e]; [|done].
  by case_bool_decide.
Qed.

Lemma no_action_keyword (kw : dict) :
  kw !! "action" = None → bool_decide ("action" ∈ dom kw) = false.
Proof. intros H. apply bool_decide_eq_false. by apply not_elem_of_dom. Qed.

Lemma no_action_keyword_result (kw : dict) v :
  kw !! "action" = None →
  bool_decide ("action" ∈ dom (<["result" := v]> kw)) = false.
Proof.
  intros H. apply no_action_keyword. by rewrite lookup_insert_ne.
Qed.

Lemma send_log σ em action a kw w t :
  ∃ o w' t', send σ em action a kw (w, t) = (o, (w', t ++ t'))
    ∧ Forall (λ e, notified_on (action +:+ "_" +:+ em_fname em) e = true) t'.
Proof.
  rewrite send_unfold. case_bool_decide.
  - exists (Raise TypeError), w, []. by rewrite app_nil_r.
  - destruct (getcallargs _ _ _) as [bound|e].
    + apply notify_log.
    + exists (Raise e), w, []. by rewrite app_nil_r.
Qed.

End SignalProps.

(** ** The wrapper *)

Section WrapperProps.
Context {W : Type}.
Implicit Types (σ : store_of W) (em : @emitter W) (fn : @pyfunc W).
Implicit Types (r p q : @receiver W) (rs before after : list (@receiver W)).
Implicit Types (w : W) (t : list event) (st : @state W).



Lemma pre_channel fname : "pre" +:+ "_" +:+ fname = pre_name fname.
Proof. done. Qed.

Lemma post_channel fname : "post" +:+ "_" +:+ fname = post_name fname.
Proof. done. Qed.



Lemma sendkw_contents fn (kw : dict) :
  make_sendkw fn kw !! "kwargs" = Some (VDict kw)
  ∧ make_sendkw fn kw !! "sender" = Some (VStr (fn_name fn))
  ∧ make_sendkw fn kw !! "emitter"
    = Some match kw !! "self" with
           | Some v => v
           | None => match kw !! "cls" with
                     | Some v => v
                     | None => VFn (fn_id fn)
                     end
           end.
Proof.
  unfold make_sendkw. rewrite filter_dom_self.
  split; [|split].
  - by rewrite lookup_insert_eq.
  - rewrite lookup_insert_ne by done. by rewrite lookup_insert_eq.
  - do 2 (rewrite lookup_insert_ne by done). rewrite lookup_insert_eq.
    destruct (kw !! "self"); [done|]. by destruct (kw !! "cls").
Qed.

(** A call that passes no keyword named [result] or [action], whose arguments bind, and
    whose receivers and body return: the receivers of the pre channel are
    called, then the function runs, then the receivers of the post channel are
    called with the returned value, which the wrapper returns.  Both
    dispatches carry the same [sendkw]. *)
Lemma wrapper_runs_pre_fn_post σ em a kw w t bound :
  kw !! "result" = None →
  kw !! "action" = None →
  getcallargs (fn_spec (em_fn em)) a kw = Ret bound →
  Forall always_returns (pre_receivers σ em) →
  Forall always_returns (post_receivers σ em) →
  (∀ w1, ∃ v w2, fn_body (em_fn em) bound w1 = (Ret v, w2)) →
  ∃ v w1 w2 w',
    fn_body (em_fn em) bound w1 = (Ret v, w2)
    ∧ wrapper σ em a kw (w, t)
      = (Ret v,
         (w', t ++ notifications (pre_name (em_fname em)) (pre_receivers σ em)
                     VNone (make_sendkw (em_fn em) (bound ∪ kw))
                ++ [Invoked (fn_id (em_fn em)) a kw]
                ++ notifications (post_name (em_fname em))
                     (post_receivers σ em) v
                     (make_sendkw (em_fn em) (bound ∪ kw)))).
Proof.
  intros Hres Hact Hbind Hpre Hpost Hbody.
  set (sk := make_sendkw (em_fn em) (bound ∪ kw)).
  unfold wrapper, bind. rewrite send_unfold, pre_channel.
  rewrite no_action_keyword by done.
  fold (pre_receivers σ em).
  rewrite (delete_id kw) by done. rewrite Hbind.
  rewrite bool_decide_eq_false_2 by done. fold sk.
  destruct (notify_returns (pre_name (em_fname em)) _ VNone sk w t Hpre)
    as (w1 & ->).
  unfold call. rewrite Hbind.
  destruct (Hbody w1) as (v & w2 & Hv). rewrite Hv.
  rewrite send_unfold, post_channel. fold (post_receivers σ em).
  rewrite no_action_keyword_result by done.
  rewrite delete_insert_eq, (delete_id kw) by done.
  rewrite Hbind, lookup_insert_eq.
  rewrite bool_decide_eq_true_2 by done. fold sk. simpl.
  destruct (notify_returns (post_name (em_fname em)) _ v sk w2
              ((t ++ notifications (pre_name (em_fname em))
                       (pre_receivers σ em) VNone sk)
               ++ [Invoked (fn_id (em_fn em)) a kw]) Hpost) as (w' & ->).
  exists v, w1, w2, w'. split; [done|]. unfold ret.
  by rewrite <- !app_assoc.
Qed.

(** The same call, followed through its states: once the pre dispatch has
    completed in [(w1, t1)] and the function, run in [w1], has returned [v]
    and left [w2], the rest of the call is the post dispatch, started in
    [w2] after the run was logged; the wrapper returns [v] if it completes
    and raises what it raises. *)
Lemma wrapper_after_pre σ em a (kw bound : dict) w t w1 t1 v w2 :
  kw !! "result" = None →
  kw !! "action" = None →
  getcallargs (fn_spec (em_fn em)) a kw = Ret bound →
  notify (pre_name (em_fname em)) (pre_receivers σ em) VNone
    (make_sendkw (em_fn em) (bound ∪ kw)) (w, t) = (Ret tt, (w1, t1)) →
  fn_body (em_fn em) bound w1 = (Ret v, w2) →
  wrapper σ em a kw (w, t)
  = match notify (post_name (em_fname em)) (post_receivers σ em) v
            (make_sendkw (em_fn em) (bound ∪ kw))
            (w2, t1 ++ [Invoked (fn_id (em_fn em)) a kw]) with
    | (Ret _, st) => (Ret v, st)
    | (Raise e, st) => (Raise e, st)
    end.
Proof.
  intros Hres Hact Hbind Hpre Hbody.
  set (sk := make_sendkw (em_fn em) (bound ∪ kw)) in *.
  unfold wrapper, bind. rewrite send_unfold, pre_channel.
  rewrite no_action_keyword by done.
  fold (pre_receivers σ em).
  rewrite (delete_id kw) by done. rewrite Hbind.
  rewrite bool_decide_eq_false_2 by done. fold sk. rewrite Hpre.
  unfold call. rewrite Hbind, Hbody.
  rewrite send_unfold, post_channel. fold (post_receivers σ em).
  rewrite no_action_keyword_result by done.
  rewrite delete_insert_eq, (delete_id kw) by done.
  rewrite Hbind, lookup_insert_eq.
  rewrite bool_decide_eq_true_2 by done. fold sk. cbn [default id].
  by destruct (notify _ _ _ _ _) as [[[]|e] st].
Qed.

End WrapperProps.

(** ** Calls that pass a keyword named [result] *)

(** C1: [def f(result): return result] accepts [f(result=1)], but its
    wrapper raises [TypeError] before any observer or [f] itself is called:
    [send] removes the keyword before binding the arguments. *)
Theorem wrapper_rejects_result_keyword :
  let em := (observed f_result (observer_ok 10) (observer_ok 11)).1 in
  let σ := (observed f_result (observer_ok 10) (observer_ok 11)).2 in
  let kwargs : dict := {["result" := VInt 1]} in
  call f_result [] kwargs (tt, [])
    = (Ret (VInt 1), (tt, [Invoked 1 [] kwargs]))
  ∧ pre_receivers σ em = [observer_ok 10]
  ∧ post_receivers σ em = [observer_ok 11]
  ∧ wrapper σ em [] kwargs (tt, []) = (Raise TypeError, (tt, [])).
Proof. vm_compute. done. Qed.

(** C5: [def f(a, result=None): return result] called as
    [f(1, result=5)]: the function receives [5] and returns it, while both
    observers are handed the mapping [{"a": 1, "result": None}]. *)
Theorem result_keyword_hidden_from_observers :
  let em := (observed f_a_result (observer_ok 10) (observer_ok 11)).1 in
  let σ := (observed f_a_result (observer_ok 10) (observer_ok 11)).2 in
  let kwargs : dict := {["result" := VInt 5]} in
  let seen : dict := <["a" := VInt 1]> {["result" := VNone]} in
  getcallargs (fn_spec f_a_result) [VInt 1] kwargs
    = Ret (<["a" := VInt 1]> {["result" := VInt 5]})
  ∧ wrapper σ em [VInt 1] kwargs (tt, [])
    = (Ret (VInt 5),
       (tt, [Notified "pre_pkg.mod__f" 10 VNone (make_sendkw f_a_result seen);
             Invoked 1 [VInt 1] kwargs;
             Notified "post_pkg.mod__f" 11 (VInt 5)
               (make_sendkw f_a_result seen)]))
  ∧ make_sendkw f_a_result seen !! "kwargs" = Some (VDict seen).
Proof. vm_compute. done. Qed.

(** Without that keyword the observers get the bound arguments:
    [f(1, b=2)] for [def f(a, b)] delivers [{"a": 1, "b": 2}], with the
    function's name as sender and the function as emitter. *)
Example observers_get_bound_arguments :
  let em := (observed f_a_b (observer_ok 10) (observer_ok 11)).1 in
  let σ := (observed f_a_b (observer_ok 10) (observer_ok 11)).2 in
  let sendkw : dict :=
    <["kwargs" := VDict (<["a" := VInt 1]> {["b" := VInt 2]})]>
    (<["sender" := VStr "f"]> {["emitter" := VFn 1]}) in
  wrapper σ em [VInt 1] {["b" := VInt 2]} (tt, [])
  = (Ret (VInt 1),
     (tt, [Notified "pre_pkg.mod__f" 10 VNone sendkw;
           Invoked 1 [VInt 1] {["b" := VInt 2]};
           Notified "post_pkg.mod__f" 11 (VInt 1) sendkw])).
Proof. vm_compute. done. Qed.

Section DeliveredArguments.
Context {W : Type}.
Implicit Types (σ : store_of W) (em : @emitter W).


End DeliveredArguments.

(** ** Witnesses for the failure cases *)





(** ** The codec instance *)

Lemma no_dot_marks c n : Ascii.eqb c dot = false → no_dot (marks c n) = true.
Proof. intros Hc. induction n as [|n IH]; simpl; [done|]. by rewrite Hc, IH. Qed.

Lemma toy_signature_no_dot v : no_dot (toy_signature v) = true.
Proof.
  unfold toy_signature.
  change ("s" +:+ marks "g" (String.length v))
    with (String "s" (marks "g" (String.length v))).
  simpl. by rewrite no_dot_marks.
Qed.

Lemma toy_signature_verifies v : toy_verify v (toy_signature v) = true.
Proof. unfold toy_verify. apply String.eqb_refl. Qed.

Lemma unsign_sign_compressed_fails_witness :
  toy_dump 5 = "." +:+ "jxxxxx"
  ∧ no_dot "jxxxxx" = true
  ∧ toy_load "" = None
  ∧ ∃ e, unsign_data toy_load toy_verify toy_decode_ts toy_fromtimestamp
           (sign_data toy_dump toy_signature toy_encode_ts
              toy_local_to_timestamp 5 None 0%Z) 0%Z
         = Raise e.
Proof.
  split; [reflexivity|]. split; [reflexivity|]. split; [reflexivity|].
  apply (unsign_sign_compressed_fails toy_dump toy_load toy_signature
           toy_verify toy_encode_ts toy_decode_ts toy_local_to_timestamp
           toy_fromtimestamp
           toy_signature_no_dot toy_signature_verifies 5 "jxxxxx" 0%Z 0%Z);
    reflexivity.
Defined.

(** The same run, evaluated: a short payload comes back, a long one is
    rejected, a timed token expires at its timestamp. *)
Example toy_round_trips :
  unsign_data toy_load toy_verify toy_decode_ts toy_fromtimestamp
    (sign_data toy_dump toy_signature toy_encode_ts toy_local_to_timestamp
       2 None 0%Z) 0%Z = Ret 2
  ∧ sign_data toy_dump toy_signature toy_encode_ts toy_local_to_timestamp
      5 None 0%Z
    = ".jxxxxx.sggggggg"
  ∧ unsign_data toy_load toy_verify toy_decode_ts toy_fromtimestamp
      ".jxxxxx.sggggggg" 0%Z
    = Raise BadTimeSignature
  ∧ unsign_data toy_load toy_verify toy_decode_ts toy_fromtimestamp
      (sign_data toy_dump toy_signature toy_encode_ts toy_local_to_timestamp
         2 (Some 1%Z) 17990000000%Z)
      18049999999%Z = Ret 2
  ∧ unsign_data toy_load toy_verify toy_decode_ts toy_fromtimestamp
      (sign_data toy_dump toy_signature toy_encode_ts toy_local_to_timestamp
         2 (Some 1%Z) 17990000000%Z)
      18050000000%Z = Raise SignatureExpired.
Proof. vm_compute. done. Qed.

(** ** Channel names *)

Section NamingProps.
Context {W : Type}.
Implicit Types (σ : store_of W) (em : @emitter W) (fn : @pyfunc W).

Lemma ns_at_with_ns_eq σ n f : ns_at (with_ns σ n f) n = f (ns_at σ n).
Proof. unfold ns_at at 1, with_ns. by rewrite lookup_insert_eq. Qed.

Lemma ns_at_with_ns_ne σ n m f : n ≠ m → ns_at (with_ns σ n f) m = ns_at σ m.
Proof. intros Hne. unfold ns_at, with_ns. by rewrite lookup_insert_ne. Qed.

Lemma signal_registered name (ns : gmap string (list (@receiver W))) :
  is_Some (signal name ns !! name).
Proof.
  unfold signal. destruct (ns !! name) eqn:E; [by rewrite E|].
  by rewrite lookup_insert_eq.
Qed.

Lemma signal_keeps name name' (ns : gmap string (list (@receiver W))) :
  is_Some (ns !! name') → is_Some (signal name ns !! name').
Proof.
  intros Hs. unfold signal. destruct (ns !! name) eqn:E; [done|].
  destruct (decide (name = name')) as [<-|Hne].
  - by rewrite lookup_insert_eq.
  - by rewrite lookup_insert_ne.
Qed.

(** Creating a signal never changes who is connected. *)
Lemma receivers_signal name name' (ns : gmap string (list (@receiver W))) :
  receivers name' (signal name ns) = receivers name' ns.
Proof.
  unfold signal, receivers. destruct (ns !! name) eqn:E; [done|].
  destruct (decide (name = name')) as [<-|Hne].
  - by rewrite lookup_insert_eq, E.
  - by rewrite lookup_insert_ne.
Qed.

(** C2: without an explicit sender, the base name is
    [module__name] for a function with neither [self] nor [cls] among its
    parameters, and [module_caller__name] otherwise, [caller] being the name
    of the code object that applies the decorator; the decoration registers
    the channels [pre_<base>] and [post_<base>] in the namespace it uses. *)
Theorem emit_signal_channel_names fn caller namespace σ :
  let em := (emit_signal None namespace fn caller σ).1 in
  let σ' := (emit_signal None namespace fn caller σ).2 in
((("self" ∉ args (fn_spec fn)) ∧ ("cls" ∉ args (fn_spec fn))) →
     em_fname em = fn_module fn +:+ "__" +:+ fn_name fn)
  ∧ ("self" ∈ args (fn_spec fn) ∨ "cls" ∈ args (fn_spec fn) →
     em_fname em = (fn_module fn +:+ "_" +:+ caller) +:+ "__" +:+ fn_name fn)
  ∧ is_Some (ns_at σ' (em_namespace em) !! ("pre_" +:+ em_fname em))
  ∧ is_Some (ns_at σ' (em_namespace em) !! ("post_" +:+ em_fname em)).
Proof.
  simpl. unfold default_fname. split; [|split; [|split]].
  - intros [Hself Hcls]. rewrite bool_decide_eq_false_2; [done|]. tauto.
  - intros Hrecv. by rewrite bool_decide_eq_true_2.
  - rewrite ns_at_with_ns_eq. apply signal_keeps.
    rewrite ns_at_with_ns_eq. apply signal_registered.
  - rewrite ns_at_with_ns_eq. apply signal_registered.
Qed.

End NamingProps.

(** The literal names: [foo()] in [pkg.mod], and [bar(self)] decorated
    inside a function named [setup]. *)
Lemma channel_names_foo_bar :
  em_fname (emit_signal None None foo "<module>" ∅).1 = "pkg.mod__foo"
  ∧ em_fname (emit_signal None None bar "setup" ∅).1 = "pkg.mod_setup__bar"
  ∧ dom (ns_at (emit_signal None None foo "<module>" ∅).2 0)
    = {["pre_pkg.mod__foo"; "post_pkg.mod__foo"]}
  ∧ dom (ns_at (emit_signal None None bar "setup" ∅).2 0)
    = {["pre_pkg.mod_setup__bar"; "post_pkg.mod_setup__bar"]}.
Proof.
  split; [|split].
  - apply (emit_signal_channel_names foo "<module>" None ∅).
    split; by apply not_elem_of_nil.
  - apply (emit_signal_channel_names bar "setup" None ∅).
    left. by apply list_elem_of_here.
  - split; vm_compute; reflexivity.
Defined.

(** ** Decorating again *)

Section RedecorationProps.
Context {W : Type}.
Implicit Types (σ : store_of W) (em : @emitter W) (fn : @pyfunc W).

(** Decorating never changes who is connected, in any namespace. *)
Lemma decorator_keeps_receivers sender n fn caller σ name m :
  receivers name (ns_at (decorator sender n fn caller σ).2 m)
  = receivers name (ns_at σ m).
Proof.
  unfold decorator. simpl. destruct (decide (n = m)) as [<-|Hne].
  - by rewrite !ns_at_with_ns_eq, !receivers_signal.
  - by rewrite !ns_at_with_ns_ne.
Qed.

(** [send] and [wrapper] read the store only through the receivers of the
    emitter's namespace. *)
Lemma send_ext σ σ' em action a kw st :
  (∀ name, receivers name (ns_at σ (em_namespace em))
           = receivers name (ns_at σ' (em_namespace em))) →
  send σ em action a kw st = send σ' em action a kw st.
Proof. intros Hrs. rewrite !send_unfold. by rewrite Hrs. Qed.

Lemma wrapper_ext σ σ' em a kw st :
  (∀ name, receivers name (ns_at σ (em_namespace em))
           = receivers name (ns_at σ' (em_namespace em))) →
  wrapper σ em a kw st = wrapper σ' em a kw st.
Proof.
  intros Hrs. unfold wrapper, bind. rewrite (send_ext σ σ') by done.
  destruct (send σ' em "pre" a kw st) as [[u|e] st1]; [|done].
  destruct (call (em_fn em) a kw st1) as [[v|e] st2]; [|done].
  by rewrite (send_ext σ σ').
Qed.

(** Two decorations of the same function, from the same place and with the
    same sender, compute the same channel name; when both use the same
    namespace they give the same emitter, and the second one leaves every
    connection in place, so both wrappers notify the same receivers. *)
Lemma redecoration_same_channel sender namespace fn caller σ σ' :
  let em1 := (emit_signal sender namespace fn caller σ).1 in
  let em2 := (emit_signal sender namespace fn caller σ').1 in
  em_fname em2 = em_fname em1
  ∧ (pick_namespace namespace σ' = pick_namespace namespace σ → em2 = em1).
Proof. simpl. split; [done|]. by intros ->. Qed.

(** X16: decorating a function again in the default namespace, with the
    same sender and from the same place, gives the same emitter and keeps
    every connection: the new wrapper behaves exactly like the first one. *)
Lemma redecoration_shares_observers sender fn caller σ σ' a kw st :
  (∀ name, receivers name (ns_at σ global_namespace)
           = receivers name (ns_at σ' global_namespace)) →
  let em1 := (emit_signal sender None fn caller σ).1 in
  let em2 := (emit_signal sender None fn caller σ').1 in
  let σ'' := (emit_signal sender None fn caller σ').2 in
  em2 = em1 ∧ wrapper σ'' em2 a kw st = wrapper σ em1 a kw st.
Proof.
  intros Hrs. simpl. split; [done|].
  apply wrapper_ext. intros name. simpl.
  by rewrite (decorator_keeps_receivers sender global_namespace fn caller σ').
Qed.

End RedecorationProps.

(** C6: [foo] is decorated with an explicit namespace that is still empty,
    so the global namespace is used and [p] is connected there; a signal is
    then created in the explicit namespace, and [foo] is decorated again
    with the same arguments.  The channel name is the same, but the second
    emitter dispatches in the explicit namespace: calling the first wrapper
    notifies [p], calling the second one does not. *)
Theorem redecoration_in_filled_namespace_loses_observer :
  let p := observer_ok 10 in
  let σ1 := (emit_signal None (Some 1) foo "<module>" ∅).2 in
  let em1 := (emit_signal None (Some 1) foo "<module>" ∅).1 in
  let σ2 := connect_pre em1 p σ1 in
  let σ3 := with_ns σ2 1 (signal "other") in
  let em2 := (emit_signal None (Some 1) foo "<module>" σ3).1 in
  let σ4 := (emit_signal None (Some 1) foo "<module>" σ3).2 in
  em_fname em1 = "pkg.mod__foo"
  ∧ em_fname em2 = "pkg.mod__foo"
  ∧ em_namespace em1 = global_namespace
  ∧ em_namespace em2 = 1
  ∧ wrapper σ4 em1 [] ∅ (tt, [])
    = (Ret VNone,
       (tt, [Notified "pre_pkg.mod__foo" 10 VNone (make_sendkw foo ∅);
             Invoked 2 [] ∅]))
  ∧ wrapper σ4 em2 [] ∅ (tt, []) = (Ret VNone, (tt, [Invoked 2 [] ∅])).
Proof. vm_compute. done. Qed.

(** ** Flash data *)

Lemma get_flashed_data_absent (session : dict) :
  session !! "_flash_data" = None → get_flashed_data session = (VNone, session).
Proof.
  intros Hnone. unfold get_flashed_data. by rewrite Hnone, delete_id.
Qed.

Lemma get_flashed_data_n_absent n (session : dict) :
  session !! "_flash_data" = None →
  get_flashed_data_n n session = (replicate n VNone, session).
Proof.
  intros Hnone. induction n as [|n IH]; [done|].
  cbn [get_flashed_data_n]. by rewrite get_flashed_data_absent, IH.
Qed.

(** C9: after [set_flash_data(d)] the first read returns [d] and removes
    the entry; any number of further reads return [None] and leave the
    session alone; a read when nothing was set returns [None]. *)
Theorem flash_data_read_once (d : value) (session : dict) (n : nat) :
  let first := get_flashed_data (set_flash_data d session) in
  first = (d, delete "_flash_data" session)
  ∧ first.2 !! "_flash_data" = None
  ∧ get_flashed_data_n n first.2 = (replicate n VNone, first.2)
  ∧ (session !! "_flash_data" = None →
     get_flashed_data session = (VNone, session))
  ∧ get_flashed_data (set_flash_data d first.2) = (d, first.2).
Proof.
  assert (Hfirst : get_flashed_data (set_flash_data d session)
                   = (d, delete "_flash_data" session)).
  { unfold get_flashed_data, set_flash_data.
    by rewrite lookup_insert_eq, delete_insert_eq. }
  simpl. rewrite Hfirst. simpl.
  split; [done|]. split; [apply lookup_delete_eq|].
  split; [apply get_flashed_data_n_absent, lookup_delete_eq|].
  split; [apply get_flashed_data_absent|].
  unfold get_flashed_data, set_flash_data.
  rewrite lookup_insert_eq, delete_insert_eq. simpl.
  by rewrite (delete_id (delete _ _)) by apply lookup_delete_eq.
Qed.

(** ** Storage upload *)

Lemma getcallargs_one_parameter_two_values name (x y : value) (named : dict) :
  getcallargs (ArgSpec [name] None None []) [x; y] named = Raise TypeError.
Proof.
  unfold getcallargs. cbn [args varargs varkw defaults length Nat.min].
  do 2 (case_bool_decide; [done|]).
  case_bool_decide as Hmany; [done|].
  exfalso. apply Hmany. split; [lia|done].
Qed.

Section StorageProps.
Context {W : Type}.
Variable storage_upload : value → dict → W → outcome value * W.

Lemma upload_kwargs_lookup (props kw : dict) k :
  upload_kwargs props kw !! k
  = match kw !! k with Some v => Some v | None => props !! k end.
Proof.
  unfold upload_kwargs. rewrite !lookup_union, lookup_empty.
  destruct (kw !! k), (props !! k); done.
Qed.

(** The body of [upload_file(_props_key, file, **kw)] once a module
    [signals] is bound: [ValueError] and nothing else when the
    configuration has no (or an empty) table of profiles or when the table
    lacks the name; otherwise the upload is handed to [signals.upload_file]
    with the profile's properties, overridden by the keyword arguments
    given. *)
Lemma upload_file_with_signals (upload : (W → outcome value * W) → @M W value)
    (cfg : config) (key : string) (file : value) (kw : dict) (st : @state W) :
  match cfg !! "STORAGE_UPLOAD_FILE_PROPS" ≫= (λ conf, conf !! key) with
  | None =>
      ∃ msg, upload_file storage_upload (Some upload) cfg (Some key)
               file kw st = (Raise (ValueError msg), st)
  | Some props =>
      ∃ kwargs,
        upload_file storage_upload (Some upload) cfg (Some key) file kw st
        = upload (storage_upload file kwargs) st
        ∧ ∀ k, kwargs !! k
               = match kw !! k with Some v => Some v | None => props !! k end
  end.
Proof.
  unfold upload_file, signals_upload_file.
  destruct (cfg !! "STORAGE_UPLOAD_FILE_PROPS") as [conf|] eqn:Hcfg; simpl.
  - destruct (conf !! key) as [props|] eqn:Hkey.
    + rewrite bool_decide_eq_false_2.
      * exists (upload_kwargs props kw). split; [done|].
        apply upload_kwargs_lookup.
      * intros Hempty. apply (elem_of_dom_2 conf) in Hkey.
        rewrite Hempty in Hkey. set_solver.
    + case_bool_decide; by eexists.
  - by eexists.
Qed.

(** C8: as the files stand, [upload_file] with a profile name never
    requests an upload.  In asm.py the name is rebound to the wrapper of
    the emitter [upload_file(change)], and the call with a profile name and
    a file raises [TypeError] for every configuration.  The body of
    [upload_file(_props_key, file, **kw)], which Flasik keeps under that
    name, raises [ValueError] when the profile is missing, but with the
    profile present it raises [NameError] at [signals], a name neither file
    binds.  Nothing is logged and the world is left as it was. *)
Theorem upload_file_never_uploads (σ : store_of W) (module : string) (id : nat)
    (call_value : value → W → outcome value * W)
    (cfg : config) (key : string) (file : value) (kw : dict) (st : @state W) :
  asm_upload_file σ module id call_value [VStr key; file] kw st
  = (Raise TypeError, st)
  ∧ match cfg !! "STORAGE_UPLOAD_FILE_PROPS" ≫= (λ conf, conf !! key) with
    | None =>
        ∃ msg, upload_file storage_upload None cfg (Some key) file kw st
               = (Raise (ValueError msg), st)
    | Some props =>
        upload_file storage_upload None cfg (Some key) file kw st
        = (Raise NameError, st)
    end.
Proof.
  split.
  - unfold asm_upload_file, wrapper, bind. rewrite send_unfold.
    case_bool_decide; [done|].
    cbn [emit_signal decorator fst em_fn upload_file_emitter fn_spec].
    by rewrite getcallargs_one_parameter_two_values.
  - unfold upload_file, signals_upload_file.
    destruct (cfg !! "STORAGE_UPLOAD_FILE_PROPS") as [conf|] eqn:Hcfg; simpl.
    + destruct (conf !! key) as [props|] eqn:Hkey.
      * rewrite bool_decide_eq_false_2; [done|].
        intros Hempty. apply (elem_of_dom_2 conf) in Hkey.
        rewrite Hempty in Hkey. set_solver.
      * case_bool_decide; by eexists.
    + by eexists.
Qed.

End StorageProps.

(** The profile of the docstring, with [public] overridden by the caller;
    an unknown profile; a configuration without profiles; and the same call
    with [signals.upload_file] bound to a function that calls its
    argument. *)
Example upload_file_profile_image :
  let call_change (change : unit → outcome value * unit) : @M unit value :=
    λ st, ((change st.1).1, ((change st.1).2, st.2)) in
  asm_upload_file ∅ "assembly.asm" 4 (λ _ w, (Ret VNone, w))
    [VStr "profile-image"; VStr "a.png"] {["public" := VBool false]} (tt, [])
  = (Raise TypeError, (tt, []))
  ∧ upload_file echo_upload None cfg_profiles
      (Some "profile-image") (VStr "a.png") {["public" := VBool false]} (tt, [])
    = (Raise NameError, (tt, []))
  ∧ upload_file echo_upload None cfg_profiles
      (Some "banner") (VStr "a.png") ∅ (tt, [])
    = (Raise (ValueError "Missing 'banner' in config STORAGE_UPLOAD_FILE_PROPS"),
       (tt, []))
  ∧ upload_file echo_upload None ∅
      (Some "profile-image") (VStr "a.png") ∅ (tt, [])
    = (Raise (ValueError "Missing STORAGE_UPLOAD_FILE_PROPS in config"),
       (tt, []))
  ∧ upload_file echo_upload (Some call_change) cfg_profiles
      (Some "profile-image") (VStr "a.png") {["public" := VBool false]} (tt, [])
    = (Ret (VDict (<["prefix" := VStr "/profile-image/"]>
                   {["public" := VBool false]})),
       (tt, [])).
Proof. vm_compute. done. Qed.

(** ** One observer before, one after *)

Section ObservedProps.
Context {W : Type}.
Implicit Types (fn : @pyfunc W) (p q r : @receiver W).
Implicit Types (ns : gmap string (list (@receiver W))).

Lemma lookup_signal_self name ns :
  signal name ns !! name = Some (receivers name ns).
Proof.
  unfold signal, receivers. destruct (ns !! name) eqn:E; [by rewrite E|].
  by rewrite lookup_insert_eq.
Qed.

Lemma receivers_connect name r ns :
  is_Some (ns !! name) →
  receivers name (alter (connect r) name ns) = connect r (receivers name ns).
Proof.
  intros [rs Hrs]. unfold receivers. by rewrite lookup_alter_eq, Hrs.
Qed.

Lemma receivers_connect_other name name' r ns :
  name ≠ name' →
  receivers name' (alter (connect r) name ns) = receivers name' ns.
Proof. intros Hne. unfold receivers. by rewrite lookup_alter_ne. Qed.

Lemma connect_first r : connect r [] = [r].
Proof. done. Qed.

(** After [observed], the pre channel holds [p] alone and the post channel
    [q] alone. *)
Lemma observed_receivers fn p q :
  pre_receivers (observed fn p q).2 (observed fn p q).1 = [p]
  ∧ post_receivers (observed fn p q).2 (observed fn p q).1 = [q]
  ∧ em_fn (observed fn p q).1 = fn.
Proof.
  unfold observed, pre_receivers, post_receivers, connect_pre, connect_post.
  unfold emit_signal, decorator. simpl.
  set (fname := default_fname fn "<module>").
  pose proof (pre_post_distinct fname) as Hne.
  rewrite !ns_at_with_ns_eq.
  assert (Hpre : is_Some (signal (post_name fname)
                            (signal (pre_name fname)
                               (ns_at (∅ : store_of W) 0))
                          !! pre_name fname)).
  { apply signal_keeps, signal_registered. }
  split; [|split; [|done]].
  - rewrite receivers_connect_other by done.
    rewrite receivers_connect by done.
    rewrite !receivers_signal. done.
  - rewrite receivers_connect.
    + rewrite receivers_connect_other by done.
      rewrite !receivers_signal. done.
    + rewrite lookup_alter_ne by done. apply signal_registered.
Qed.

(** X14: one observer [p] before and one observer [q] after a function
    [fn], for a call that binds and passes no keyword named [result] or
    [action].  If [p] returns and leaves the world [w1], [fn] run in [w1]
    returns [v] and leaves [w2], and [q] given [v] returns and leaves [w3],
    then the wrapper returns [v] in the world [w3], and the log is exactly
    one call of [p], the run of [fn], one call of [q] with [v]. *)
Lemma observed_call_trace fn p q a (kw bound : dict) w t vp w1 v w2 vq w3 :
  kw !! "result" = None →
  kw !! "action" = None →
  getcallargs (fn_spec fn) a kw = Ret bound →
  let em := (observed fn p q).1 in
  let σ := (observed fn p q).2 in
  let sendkw := make_sendkw fn (bound ∪ kw) in
  rc_run p VNone sendkw w = (Ret vp, w1) →
  fn_body fn bound w1 = (Ret v, w2) →
  rc_run q v sendkw w2 = (Ret vq, w3) →
  wrapper σ em a kw (w, t)
  = (Ret v,
     (w3, t ++ [Notified (pre_name (em_fname em)) (rc_id p) VNone sendkw;
                Invoked (fn_id fn) a kw;
                Notified (post_name (em_fname em)) (rc_id q) v sendkw])).
Proof.
  intros Hres Hact Hbind em σ sendkw Hp Hf Hq.
  destruct (observed_receivers fn p q) as (Hpre & Hpost & Hfn).
  fold em σ in Hpre, Hpost, Hfn.
  unfold wrapper, bind. rewrite send_unfold, pre_channel.
  rewrite no_action_keyword by done.
  fold (pre_receivers σ em).
  rewrite Hpre, Hfn, (delete_id kw), Hbind by done.
  rewrite bool_decide_eq_false_2 by done. fold sendkw.
  cbn [notify]. rewrite Hp.
  unfold ret at 1. cbv beta iota. unfold call. rewrite Hbind, Hf.
  rewrite send_unfold, post_channel. fold (post_receivers σ em).
  rewrite no_action_keyword_result by done.
  rewrite Hpost, Hfn, delete_insert_eq, (delete_id kw) by done.
  rewrite Hbind, lookup_insert_eq.
  rewrite bool_decide_eq_true_2 by done. fold sendkw.
  cbn [notify default id]. rewrite Hq. unfold ret.
  by rewrite <- !app_assoc.
Qed.

End ObservedProps.

(** * Further properties *)

(** ** The wrapper, whatever the observers do *)

Section WrapperMore.
Context {W : Type}.
Implicit Types (σ : store_of W) (em : @emitter W) (fn : @pyfunc W).
Implicit Types (r p q : @receiver W) (rs before after : list (@receiver W)).
Implicit Types (w : W) (t : list event) (st : @state W).

Lemma notify_nil name s kw st : @notify W name [] s kw st = (Ret tt, st).
Proof. done. Qed.

(** X1: with nobody connected to either channel, and no keyword named
    [result] or [action], calling the wrapper is calling the function: same
    outcome, same effect on the world, same log. *)
Theorem wrapper_transparent_without_observers σ em a (kw : dict) st :
  pre_receivers σ em = [] →
  post_receivers σ em = [] →
  kw !! "result" = None →
  kw !! "action" = None →
  wrapper σ em a kw st = call (em_fn em) a kw st.
Proof.
  intros Hpre Hpost Hres Hact. destruct st as [w t].
  unfold wrapper, bind. rewrite send_unfold, pre_channel.
  rewrite no_action_keyword by done.
  fold (pre_receivers σ em). rewrite Hpre, (delete_id kw) by done.
  unfold call.
  destruct (getcallargs (fn_spec (em_fn em)) a kw) as [bound|e] eqn:Hbind;
    [|done].
  rewrite notify_nil.
  destruct (fn_body (em_fn em) bound w) as [[v|e] w1]; [|done].
  rewrite send_unfold, post_channel. fold (post_receivers σ em).
  rewrite no_action_keyword_result by done.
  rewrite Hpost, delete_insert_eq, (delete_id kw), Hbind by done.
  by rewrite notify_nil.
Qed.


(** X3: for any store, observers and arguments, the log of one wrapper
    call is: notifications on the pre channel, then at most one run of the
    function, then notifications on the post channel.  Post receivers are
    only ever called after the function ran, and the wrapper only returns
    if it ran. *)
Theorem wrapper_log_order σ em a (kw : dict) w t :
  ∃ o w' tpre tcall tpost,
    wrapper σ em a kw (w, t) = (o, (w', t ++ tpre ++ tcall ++ tpost))
    ∧ Forall (λ ev, notified_on (pre_name (em_fname em)) ev = true) tpre
    ∧ (tcall = [] ∨ tcall = [Invoked (fn_id (em_fn em)) a kw])
    ∧ Forall (λ ev, notified_on (post_name (em_fname em)) ev = true) tpost
    ∧ (tcall = [] → tpost = [])
    ∧ (∀ v, o = Ret v → tcall = [Invoked (fn_id (em_fn em)) a kw]).
Proof.
  unfold wrapper, bind.
  destruct (send_log σ em "pre" a kw w t) as (o1 & w1 & t1 & -> & Ht1).
  rewrite pre_channel in Ht1.
  destruct o1 as [[]|e1].
  - unfold call.
    destruct (getcallargs (fn_spec (em_fn em)) a kw) as [bound|e2].
    + destruct (fn_body (em_fn em) bound w1) as [[v|e3] w2].
      * destruct (send_log σ em "post" a (<["result":=v]> kw) w2
                    ((t ++ t1) ++ [Invoked (fn_id (em_fn em)) a kw]))
          as (o3 & w3 & t3 & -> & Ht3).
        rewrite post_channel in Ht3.
        destruct o3 as [[]|e3].
        -- exists (Ret v), w3, t1, [Invoked (fn_id (em_fn em)) a kw], t3.
           rewrite <- !app_assoc. unfold ret. split; [done|].
           split; [done|]. split; [by right|]. split; [done|]. by split.
        -- exists (Raise e3), w3, t1, [Invoked (fn_id (em_fn em)) a kw], t3.
           rewrite <- !app_assoc. split; [done|].
           split; [done|]. split; [by right|]. split; [done|]. by split.
      * exists (Raise e3), w2, t1, [Invoked (fn_id (em_fn em)) a kw], [].
        rewrite app_nil_r, <- app_assoc. split; [done|].
        split; [done|]. split; [by right|]. split; [done|]. by split.
    + exists (Raise e2), w1, t1, [], []. rewrite !app_nil_r.
      split; [done|]. split; [done|]. split; [by left|]. split; [done|].
      by split.
  - exists (Raise e1), w1, t1, [], []. rewrite !app_nil_r.
    split; [done|]. split; [done|]. split; [by left|]. split; [done|].
    by split.
Qed.

Lemma connect_has_id r rs : rc_id r ∈ map rc_id (connect r rs).
Proof.
  unfold connect. case_bool_decide as Hin; [done|].
  rewrite map_app. simpl. apply elem_of_app. right. apply list_elem_of_here.
Qed.

(** X4: two functions decorated with the same explicit sender share
    their channels: the name is the sender itself, whatever the functions,
    and a receiver connected through the first emitter is connected for
    the second one as well. *)
Theorem explicit_sender_shares_channels (s : string) fn fn' caller caller' r σ :
  str_truthy s = true →
  let em1 := (emit_signal (Some s) None fn caller σ).1 in
  let σ1 := (emit_signal (Some s) None fn caller σ).2 in
  let σ2 := connect_pre em1 r σ1 in
  let em2 := (emit_signal (Some s) None fn' caller' σ2).1 in
  let σ3 := (emit_signal (Some s) None fn' caller' σ2).2 in
  em_fname em1 = s ∧ em_fname em2 = s
  ∧ rc_id r ∈ map rc_id (pre_receivers σ3 em2).
Proof.
  intros Hs em1 σ1 σ2 em2 σ3.
  assert (Hname : ∀ (f : @pyfunc W) c, derive_fname (Some s) f c = s).
  { intros f c. unfold derive_fname. by rewrite Hs. }
  assert (H1 : em_fname em1 = s) by apply Hname.
  assert (H2 : em_fname em2 = s) by apply Hname.
  split; [done|]. split; [done|].
  unfold pre_receivers. rewrite H2.
  change (em_namespace em2) with global_namespace.
  unfold σ3, emit_signal.
  rewrite (decorator_keeps_receivers (Some s) _ fn' caller').
  unfold σ2, connect_pre. rewrite H1.
  change (em_namespace em1) with global_namespace.
  rewrite ns_at_with_ns_eq, receivers_connect; [apply connect_has_id|].
  unfold σ1, emit_signal, decorator. cbn [snd pick_namespace].
  rewrite Hname, ns_at_with_ns_eq. apply signal_keeps.
  rewrite ns_at_with_ns_eq. apply signal_registered.
Qed.

End WrapperMore.

(** ** Signed tokens, further *)

Section SigningMore.
Context {data : Type}.
Variable dump_payload : data → string.
Variable load_payload : string → option data.
Variable signature : string → string.
Variable verify_signature : string → string → bool.
Variable encode_ts : Z → string.
Variable decode_ts : string → option Z.
Variable local_to_timestamp : Z → Z.
Variable fromtimestamp : Z → outcome Z.

(** X5: [unsign_data] never returns data from a token it did not verify:
    a returned value means the token has a dot, and the text after the last
    dot is a valid signature of the text before it.  This holds on both
    branches and at any time. *)
Theorem unsign_data_requires_signature (token : string) (now : Z) (d : data) :
  unsign_data load_payload verify_signature decode_ts fromtimestamp token now
  = Ret d →
  ∃ v sg, rsplit1 dot token = Some (v, sg) ∧ verify_signature v sg = true.
Proof.
  unfold unsign_data. case_bool_decide as Hlen.
  - unfold URLSafeTimedSerializer2_loads, TimestampSigner2_unsign.
    destruct (rsplit1 dot token) as [[v sg]|] eqn:Hsplit.
    + destruct (verify_signature v sg) eqn:Hver; [by eauto|].
      simpl. by destruct (rsplit1 dot v) as [[? ?]|].
    + by simpl.
  - unfold URLSafeSerializer_loads, Signer_unsign.
    destruct (rsplit1 dot token) as [[v sg]|] eqn:Hsplit; [|done].
    destruct (verify_signature v sg) eqn:Hver; [by eauto|done].
Qed.

(** X6: time only works against a token.  If [unsign_data] accepts a
    token at some time it accepted it at every earlier time, and once it
    raises [SignatureExpired] it does so at every later time. *)
Theorem unsign_data_expiry_monotone (token : string) (now1 now2 : Z) :
  (now1 ≤ now2)%Z →
  (∀ d, unsign_data load_payload verify_signature decode_ts fromtimestamp
          token now2 = Ret d →
        unsign_data load_payload verify_signature decode_ts fromtimestamp
          token now1 = Ret d)
  ∧ (unsign_data load_payload verify_signature decode_ts fromtimestamp
       token now1 = Raise SignatureExpired →
     unsign_data load_payload verify_signature decode_ts fromtimestamp
       token now2 = Raise SignatureExpired).
Proof.
  intros Hle. unfold unsign_data. case_bool_decide as Hlen; [|done].
  destruct (URLSafeTimedSerializer2_loads _ _ _ _ token)
    as [[v ts]|e]; [|done].
  split.
  - intros d. case_bool_decide; [|done]. intros [= <-].
    rewrite bool_decide_eq_true_2; [done|lia].
  - case_bool_decide; [done|]. intros _.
    rewrite bool_decide_eq_false_2; [done|lia].
Qed.

Hypothesis signature_no_dot : ∀ v, no_dot (signature v) = true.
Hypothesis signature_verifies : ∀ v, verify_signature v (signature v) = true.
Hypothesis encode_ts_no_dot : ∀ z, no_dot (encode_ts z) = true.
Hypothesis load_dump_payload : ∀ d, load_payload (dump_payload d) = Some d.

(** X7: a token signed without duration, [expires_in] being [None] or
    [0], never expires: for a payload without a leading dot, [unsign_data]
    returns the data at any time. *)
Theorem unsign_sign_without_duration d (expires_in : option Z) now now' :
  expires_in = None ∨ expires_in = Some 0%Z →
  no_dot (dump_payload d) = true →
  unsign_data load_payload verify_signature decode_ts fromtimestamp
    (sign_data dump_payload signature encode_ts local_to_timestamp
       d expires_in now) now' = Ret d.
Proof.
  intros Hexp Hp.
  assert (Hsame : sign_data dump_payload signature encode_ts
                    local_to_timestamp d expires_in now
                  = sign_data dump_payload signature encode_ts
                      local_to_timestamp d None now).
  { destruct Hexp as [->| ->]; [done|]. unfold sign_data.
    by rewrite bool_decide_eq_false_2 by (intros H; apply H; done). }
  rewrite Hsame.
  by apply (unsign_sign_plain dump_payload load_payload signature
              verify_signature encode_ts decode_ts).
Qed.

(** X8: when the payload of a timed token of asm.py is compressed
    (leading dot), the token has four segments and is read by the untimed
    serializer: the result does not depend on the clock, and
    [SignatureExpired] is never raised, however long ago the duration ran
    out.  The expiry is taken within what [sign_data] can write: a reading
    a [datetime] can hold, with a timestamp that is not negative. *)
Theorem compressed_timed_token_never_expires d b m now now' :
  dump_payload d = "." +:+ b →
  no_dot b = true →
  m ≠ 0%Z →
  let x := ((now + m * 60 * second) / second)%Z in
  in_datetime_range x →
  (0 ≤ local_to_timestamp x)%Z →
  unsign_data load_payload verify_signature decode_ts fromtimestamp
    (sign_data dump_payload signature encode_ts local_to_timestamp
       d (Some m) now) now'
  = match load_payload
            (dump_payload d +:+ "." +:+ encode_ts (local_to_timestamp x))
    with
    | Some d' => Ret d'
    | None => Raise BadPayload
    end
  ∧ unsign_data load_payload verify_signature decode_ts fromtimestamp
      (sign_data dump_payload signature encode_ts local_to_timestamp
         d (Some m) now) now'
    ≠ Raise SignatureExpired.
Proof.
  intros Hd Hb Hm x _ _.
  assert (Heq : unsign_data load_payload verify_signature decode_ts
                  fromtimestamp
                  (sign_data dump_payload signature encode_ts
                     local_to_timestamp d (Some m) now) now'
    = match load_payload
              (dump_payload d +:+ "." +:+ encode_ts (local_to_timestamp x))
      with
      | Some d' => Ret d'
      | None => Raise BadPayload
      end).
  { unfold unsign_data, sign_data.
    rewrite (bool_decide_eq_true_2 (m ≠ 0)%Z) by done.
    unfold URLSafeTimedSerializer2_dumps, TimestampSigner2_sign.
    unfold get_timestamp. fold x.
    set (ts := encode_ts (local_to_timestamp x)).
    set (sg := signature (dump_payload d +:+ "." +:+ ts)).
    assert (Hsplit : split dot ((dump_payload d +:+ "." +:+ ts) +:+ "." +:+ sg)
                     = [""; b; ts; sg]).
    { rewrite Hd, !append_assoc.
      change ("." +:+ b +:+ "." +:+ ts +:+ "." +:+ sg)
        with ("" +:+ "." +:+ b +:+ "." +:+ ts +:+ "." +:+ sg).
      rewrite (split_app_dot "") by done.
      rewrite (split_app_dot b) by done.
      rewrite (split_app_dot ts) by apply encode_ts_no_dot.
      by rewrite split_no_dot by apply signature_no_dot. }
    rewrite Hsplit. rewrite bool_decide_eq_false_2 by done.
    unfold URLSafeSerializer_loads, Signer_unsign.
    rewrite rsplit1_app_dot by apply signature_no_dot.
    by rewrite signature_verifies. }
  split; [done|]. rewrite Heq. by destruct (load_payload _).
Qed.

End SigningMore.

(** Flasik's plain serializer. *)
Section PlainSigningProps.
Context {data : Type}.
Variable dump_text : data → string.
Variable load_text : string → option data.
Variable signature : value → value → string → string.
Variable verify_signature : value → value → string → string → bool.

Hypothesis signature_no_dot : ∀ k s v, no_dot (signature k s v) = true.
Hypothesis signature_verifies :
  ∀ k s v, verify_signature k s v (signature k s v) = true.
Hypothesis load_dump_text : ∀ d, load_text (dump_text d) = Some d.

(** X9: Flasik's [sign_data] returns a token only when [expires_in] is
    false; [unsign_data] with the same key and salt then gives the data
    back, whatever the serialized text contains (dots included).  With a
    true [expires_in] the call returns [None]: no token is made. *)
Theorem plain_sign_unsign d (secret_key expires_in salt : value) :
  (truthy expires_in = false →
   ∃ token,
     Flasik.sign_data dump_text signature d secret_key expires_in salt
       = Some token
     ∧ Flasik.unsign_data load_text verify_signature token secret_key salt
       = Ret d)
  ∧ (truthy expires_in = true →
     Flasik.sign_data dump_text signature d secret_key expires_in salt = None).
Proof.
  unfold Flasik.sign_data. split; intros ->; [|done].
  eexists. split; [done|].
  unfold Flasik.unsign_data, Flasik.Serializer_loads, Flasik.Serializer_dumps.
  unfold Signer_unsign, Signer_sign.
  rewrite rsplit1_app_dot by apply signature_no_dot.
  by rewrite signature_verifies, load_dump_text.
Qed.

End PlainSigningProps.

(** ** Mail, configuration and flash data *)

Section MailProps.
Context {W : Type}.
Implicit Types (σ : store_of W).

Lemma send_mail_binding (cb data : value) :
  getcallargs (ArgSpec ["change"] None (Some "kwargs") []) [cb]
    {["data" := data]}
  = Ret (<["change" := cb]> {["kwargs" := VDict {["data" := data]}]}).
Proof. vm_compute. done. Qed.

Lemma send_mail_seen (cb data : value) :
  (<["change" := cb]> {["kwargs" := VDict {["data" := data]}]} : dict)
    ∪ {["data" := data]}
  = <["change" := cb]>
    (<["kwargs" := VDict {["data" := data]}]> {["data" := data]}).
Proof. vm_compute. done. Qed.

(** X10: the name [send_mail] of asm.py, which after import is the
    wrapper of the emitter [send_mail(change, **kwargs)], called as
    [send_mail(cb, data=d)].  The channels are [pre_<module>__send_mail]
    and [post_<module>__send_mail]; the mapping handed to the observers
    holds [cb] under [change] and [d] under [data], both at top level and
    inside [kwargs].  Once the pre dispatch has completed, [cb] is called
    once, without arguments, and what it returns is what the post dispatch
    gets and what the call returns if that dispatch completes. *)
Theorem send_mail_notifies_with_data σ (module : string) (id : nat)
    (call_value : value → W → outcome value * W) (cb data : value)
    w t w1 t1 v w2 :
  let fn := send_mail_emitter module id call_value in
  let em := (emit_signal None None fn "<module>" σ).1 in
  let seen : dict :=
    <["change" := cb]>
    (<["kwargs" := VDict {["data" := data]}]> {["data" := data]}) in
  let sendkw : dict :=
    <["kwargs" := VDict seen]>
    (<["sender" := VStr "send_mail"]> {["emitter" := VFn id]}) in
  notify (pre_name (em_fname em)) (pre_receivers σ em) VNone sendkw (w, t)
  = (Ret tt, (w1, t1)) →
  call_value cb w1 = (Ret v, w2) →
  em_fname em = module +:+ "__" +:+ "send_mail"
  ∧ asm_send_mail σ module id call_value [cb] {["data" := data]} (w, t)
    = match notify (post_name (em_fname em)) (post_receivers σ em) v sendkw
              (w2, t1 ++ [Invoked id [cb] {["data" := data]}]) with
      | (Ret _, st) => (Ret v, st)
      | (Raise e, st) => (Raise e, st)
      end.
Proof.
  intros fn em seen sendkw Hpre Hcb. split; [reflexivity|].
  assert (Hkw : make_sendkw fn seen = sendkw).
  { unfold make_sendkw. rewrite filter_dom_self. reflexivity. }
  unfold asm_send_mail. fold fn em.
  rewrite (wrapper_after_pre σ em [cb] {["data" := data]}
             (<["change" := cb]> {["kwargs" := VDict {["data" := data]}]})
             w t w1 t1 v w2).
  - rewrite (send_mail_seen cb data). fold seen.
    change (em_fn em) with fn. by rewrite Hkw.
  - apply lookup_singleton_ne. discriminate.
  - apply lookup_singleton_ne. discriminate.
  - exact (send_mail_binding cb data).
  - rewrite (send_mail_seen cb data). fold seen.
    change (em_fn em) with fn. rewrite Hkw. exact Hpre.
  - change (em_fn em) with fn. cbn [fn fn_body send_mail_emitter].
    rewrite lookup_insert_eq. exact Hcb.
Qed.

End MailProps.

Lemma config_warnings_spec (app_config : dict) (keys : list string) m :
  m ∈ config_warnings app_config keys
  ↔ ∃ k, k ∈ keys ∧ truthy (default VNone (app_config !! k)) = false
         ∧ m = missing_key_msg k.
Proof.
  assert (Hunset : ∀ k, key_unset app_config k = true
                        ↔ truthy (default VNone (app_config !! k)) = false).
  { intros k. unfold key_unset. rewrite orb_true_iff, !negb_true_iff.
    split; [|by right]. intros [Hdom|Hfalse]; [|done].
    apply bool_decide_eq_false in Hdom.
    apply not_elem_of_dom in Hdom. by rewrite Hdom. }
  induction keys as [|k keys IH]; simpl.
  - split; [by intros ?%elem_of_nil|].
    by intros (k & ?%elem_of_nil & _).
  - destruct (key_unset app_config k) eqn:Hk.
    + rewrite elem_of_cons, IH. split.
      * intros [->|(k' & Hin & Hf & ->)].
        -- exists k. split; [apply list_elem_of_here|]. by rewrite <- Hunset.
        -- exists k'. split; [by apply list_elem_of_further|done].
      * intros (k' & Hin & Hf & ->). apply elem_of_cons in Hin as [->|Hin].
        -- by left.
        -- right. by exists k'.
    + rewrite IH. split.
      * intros (k' & Hin & Hf & ->).
        exists k'. split; [by apply list_elem_of_further|done].
      * intros (k' & Hin & Hf & ->). apply elem_of_cons in Hin as [->|Hin].
        -- apply Hunset in Hf. congruence.
        -- by exists k'.
Qed.

(** X12: [setup] warns about exactly the listed keys whose configured
    value is not true: a key that is present but empty is reported like a
    missing one, keys outside the list are never reported, and a
    configuration with a true value for each listed key gives no warning.
    The filter [format_datetime] is registered and the other filters are
    kept. *)
Theorem setup_warns_unset_keys (filters : dict) (fmt : value)
    (app_config : dict) :
  let '(filters', warnings) := setup filters fmt app_config in
  (∀ m, m ∈ warnings
        ↔ ∃ k, k ∈ check_config_keys
               ∧ truthy (default VNone (app_config !! k)) = false
               ∧ m = missing_key_msg k)
  ∧ ((∀ k, k ∈ check_config_keys →
           truthy (default VNone (app_config !! k)) = true) →
     warnings = [])
  ∧ filters' !! "format_datetime" = Some fmt
  ∧ (∀ name, name ≠ "format_datetime" → filters' !! name = filters !! name).
Proof.
  unfold setup. split; [|split; [|split]].
  - intros m. apply config_warnings_spec.
  - intros Hall.
    destruct (config_warnings app_config check_config_keys) as [|m ms] eqn:E;
      [done|].
    assert (Hin : m ∈ config_warnings app_config check_config_keys).
    { rewrite E. apply list_elem_of_here. }
    apply config_warnings_spec in Hin as (k & Hk & Hf & _).
    rewrite (Hall k Hk) in Hf. done.
  - apply lookup_insert_eq.
  - intros name Hne. by rewrite lookup_insert_ne.
Qed.

(** X13: [set_flash_data] replaces what was set before and touches no
    other session entry; reading the flash data leaves the other entries
    as they were. *)
Theorem flash_data_replaced_and_framed (d1 d2 : value) (session : dict)
    (k : string) :
  (get_flashed_data (set_flash_data d2 (set_flash_data d1 session))).1 = d2
  ∧ set_flash_data d2 (set_flash_data d1 session) = set_flash_data d2 session
  ∧ (k ≠ "_flash_data" →
     set_flash_data d1 session !! k = session !! k
     ∧ (get_flashed_data (set_flash_data d1 session)).2 !! k = session !! k
     ∧ (get_flashed_data session).2 !! k = session !! k).
Proof.
  unfold get_flashed_data, set_flash_data. simpl.
  split; [by rewrite lookup_insert_eq|].
  split; [by rewrite insert_insert_eq|].
  intros Hne. split; [by rewrite lookup_insert_ne|].
  split.
  - rewrite lookup_delete_ne by done. by rewrite lookup_insert_ne.
  - by rewrite lookup_delete_ne.
Qed.

(** ** Witnesses on the concrete instances *)

Lemma count_marks_marks c n : count_marks c (marks c n) = Some n.
Proof.
  induction n as [|n IH]; simpl; [done|].
  by rewrite Ascii.eqb_refl, IH.
Qed.

Lemma toy_encode_ts_no_dot z : no_dot (toy_encode_ts z) = true.
Proof. unfold toy_encode_ts. by apply no_dot_marks. Qed.

Lemma toy_decode_encode_ts z :
  (0 ≤ z)%Z → toy_decode_ts (toy_encode_ts z) = Some z.
Proof.
  intros Hz. unfold toy_decode_ts, toy_encode_ts.
  rewrite count_marks_marks. simpl. by rewrite Z2Nat.id.
Qed.

Lemma toy_load_dump n : toy_load (toy_dump n) = Some n.
Proof.
  unfold toy_dump. case_bool_decide.
  - change (toy_load (String dot (String "j" (marks "x" n))) = Some n).
    unfold toy_load. simpl. apply count_marks_marks.
  - change (toy_load (String "j" (marks "x" n)) = Some n).
    unfold toy_load. simpl. apply count_marks_marks.
Qed.

Lemma wrapper_transparent_without_observers_witness :
  let em := (emit_signal None None f_a_b "<module>" (∅ : store_of unit)).1 in
  let σ := (emit_signal None None f_a_b "<module>" (∅ : store_of unit)).2 in
  let kw : dict := {["b" := VInt 2]} in
  wrapper σ em [VInt 1] kw (tt, []) = call (em_fn em) [VInt 1] kw (tt, []).
Proof.
  intros em σ kw.
  apply (wrapper_transparent_without_observers σ em [VInt 1] kw (tt, []));
    vm_compute; reflexivity.
Defined.


Lemma explicit_sender_shares_channels_witness :
  let r := observer_ok 10 in
  let em1 := (emit_signal (Some "saved") None foo "<module>" ∅).1 in
  let σ1 := (emit_signal (Some "saved") None foo "<module>" ∅).2 in
  let σ2 := connect_pre em1 r σ1 in
  let em2 := (emit_signal (Some "saved") None bar "setup" σ2).1 in
  let σ3 := (emit_signal (Some "saved") None bar "setup" σ2).2 in
  str_truthy "saved" = true
  ∧ em_fname em1 = "saved" ∧ em_fname em2 = "saved"
  ∧ rc_id r ∈ map rc_id (pre_receivers σ3 em2).
Proof.
  split; [reflexivity|].
  apply (explicit_sender_shares_channels "saved" foo bar "<module>" "setup"
           (observer_ok 10) ∅).
  reflexivity.
Defined.

Lemma unsign_data_requires_signature_witness :
  unsign_data toy_load toy_verify toy_decode_ts toy_fromtimestamp
    "jxx.sggg" 0%Z = Ret 2
  ∧ ∃ v sg, rsplit1 dot "jxx.sggg" = Some (v, sg) ∧ toy_verify v sg = true.
Proof.
  split; [vm_compute; reflexivity|].
  apply (unsign_data_requires_signature toy_load toy_verify toy_decode_ts
           toy_fromtimestamp "jxx.sggg" 0%Z 2).
  vm_compute; reflexivity.
Defined.

Lemma unsign_data_expiry_monotone_witness :
  let token := sign_data toy_dump toy_signature toy_encode_ts
                 toy_local_to_timestamp 2 (Some 1%Z) 17990000000%Z in
  (18000000000 ≤ 18040000000)%Z
  ∧ unsign_data toy_load toy_verify toy_decode_ts toy_fromtimestamp
      token 18040000000%Z = Ret 2
  ∧ unsign_data toy_load toy_verify toy_decode_ts toy_fromtimestamp
      token 18000000000%Z = Ret 2.
Proof.
  intros token.
  assert (Hle : (18000000000 ≤ 18040000000)%Z) by lia.
  assert (Hlate : unsign_data toy_load toy_verify toy_decode_ts
                    toy_fromtimestamp token 18040000000%Z = Ret 2)
    by (vm_compute; reflexivity).
  split; [exact Hle|]. split; [exact Hlate|].
  destruct (unsign_data_expiry_monotone toy_load toy_verify toy_decode_ts
              toy_fromtimestamp token 18000000000%Z 18040000000%Z Hle)
    as [Haccepted _].
  exact (Haccepted 2 Hlate).
Defined.

Lemma unsign_sign_without_duration_witness :
  no_dot (toy_dump 2) = true
  ∧ unsign_data toy_load toy_verify toy_decode_ts toy_fromtimestamp
      (sign_data toy_dump toy_signature toy_encode_ts toy_local_to_timestamp
         2 (Some 0%Z) 5%Z) 900%Z
    = Ret 2.
Proof.
  split; [reflexivity|].
  apply (unsign_sign_without_duration toy_dump toy_load toy_signature
           toy_verify toy_encode_ts toy_decode_ts toy_local_to_timestamp
           toy_fromtimestamp toy_signature_no_dot
           toy_signature_verifies toy_load_dump 2 (Some 0%Z) 5%Z 900%Z).
  - by right.
  - reflexivity.
Defined.

Lemma compressed_timed_token_never_expires_witness :
  toy_dump 5 = "." +:+ "jxxxxx"
  ∧ in_datetime_range 18050
  ∧ toy_local_to_timestamp 18050 = 50%Z
  ∧ unsign_data toy_load toy_verify toy_decode_ts toy_fromtimestamp
      (sign_data toy_dump toy_signature toy_encode_ts toy_local_to_timestamp
         5 (Some 1%Z) 17990000000%Z)
      999000000000%Z
    ≠ Raise SignatureExpired.
Proof.
  assert (Hrange : in_datetime_range 18050).
  { unfold in_datetime_range, datetime_min, datetime_max. lia. }
  split; [reflexivity|]. split; [exact Hrange|]. split; [reflexivity|].
  apply (compressed_timed_token_never_expires toy_dump toy_load toy_signature
           toy_verify toy_encode_ts toy_decode_ts toy_local_to_timestamp
           toy_fromtimestamp toy_signature_no_dot
           toy_signature_verifies toy_encode_ts_no_dot 5 "jxxxxx" 1%Z
           17990000000%Z 999000000000%Z);
    [reflexivity|reflexivity|lia|exact Hrange|by vm_compute].
Defined.

Lemma plain_sign_unsign_witness :
  (truthy VNone = false →
   ∃ token,
     Flasik.sign_data toy_dump (λ _ _, toy_signature) 5 (VStr "key") VNone VNone
       = Some token
     ∧ Flasik.unsign_data toy_load (λ _ _, toy_verify) token (VStr "key") VNone
       = Ret 5)
  ∧ (truthy VNone = true →
     Flasik.sign_data toy_dump (λ _ _, toy_signature) 5 (VStr "key") VNone VNone
     = None).
Proof.
  apply (plain_sign_unsign toy_dump toy_load (λ _ _, toy_signature)
           (λ _ _, toy_verify) (λ _ _, toy_signature_no_dot)
           (λ _ _, toy_signature_verifies) toy_load_dump 5 (VStr "key")
           VNone VNone).
Defined.

Lemma unsign_after_expiry_witness :
  in_datetime_range 18050
  ∧ toy_fromtimestamp (toy_local_to_timestamp 18050) = Ret 18050%Z
  ∧ unsign_data toy_load toy_verify toy_decode_ts toy_fromtimestamp
      (sign_data toy_dump toy_signature toy_encode_ts toy_local_to_timestamp
         2 (Some 1%Z) 17990000000%Z)
      18050000000%Z
    = Raise SignatureExpired.
Proof.
  assert (Hrange : in_datetime_range 18050).
  { unfold in_datetime_range, datetime_min, datetime_max. lia. }
  split; [exact Hrange|]. split; [reflexivity|].
  apply (unsign_after_expiry toy_dump toy_load toy_signature toy_verify
           toy_encode_ts toy_decode_ts toy_local_to_timestamp
           toy_fromtimestamp toy_signature_no_dot
           toy_signature_verifies toy_encode_ts_no_dot toy_decode_encode_ts
           toy_load_dump 2 1%Z 17990000000%Z 18050000000%Z).
  - reflexivity.
  - lia.
  - exact Hrange.
  - by vm_compute.
  - reflexivity.
  - by vm_compute.
Defined.

Lemma unsign_before_expiry_witness :
  in_datetime_range 18050
  ∧ toy_fromtimestamp (toy_local_to_timestamp 18050) = Ret 18050%Z
  ∧ unsign_data toy_load toy_verify toy_decode_ts toy_fromtimestamp
      (sign_data toy_dump toy_signature toy_encode_ts toy_local_to_timestamp
         2 (Some 1%Z) 17990000000%Z)
      18049000000%Z
    = Ret 2.
Proof.
  assert (Hrange : in_datetime_range 18050).
  { unfold in_datetime_range, datetime_min, datetime_max. lia. }
  split; [exact Hrange|]. split; [reflexivity|].
  apply (unsign_before_expiry toy_dump toy_load toy_signature toy_verify
           toy_encode_ts toy_decode_ts toy_local_to_timestamp
           toy_fromtimestamp toy_signature_no_dot
           toy_signature_verifies toy_encode_ts_no_dot toy_decode_encode_ts
           toy_load_dump 2 1%Z 17990000000%Z 18049000000%Z).
  - reflexivity.
  - lia.
  - exact Hrange.
  - by vm_compute.
  - reflexivity.
  - by vm_compute.
Defined.

Lemma send_mail_notifies_with_data_witness :
  let call_value := λ (cb : value) (w : unit), (Ret (VBool true), w) in
  let fn := send_mail_emitter "assembly.asm" 6 call_value in
  let em := (emit_signal None None fn "<module>" (∅ : store_of unit)).1 in
  let σ := connect_pre em (observer_ok 10)
             (emit_signal None None fn "<module>" (∅ : store_of unit)).2 in
  let data := VDict {["to" := VStr "user@email.com"]} in
  let seen : dict :=
    <["change" := VFn 7]>
    (<["kwargs" := VDict {["data" := data]}]> {["data" := data]}) in
  let sendkw : dict :=
    <["kwargs" := VDict seen]>
    (<["sender" := VStr "send_mail"]> {["emitter" := VFn 6]}) in
  notify "pre_assembly.asm__send_mail" (pre_receivers σ em) VNone sendkw
    (tt, [])
  = (Ret tt, (tt, [Notified "pre_assembly.asm__send_mail" 10 VNone sendkw]))
  ∧ asm_send_mail σ "assembly.asm" 6 call_value [VFn 7] {["data" := data]}
      (tt, [])
    = (Ret (VBool true),
       (tt, [Notified "pre_assembly.asm__send_mail" 10 VNone sendkw;
             Invoked 6 [VFn 7] {["data" := data]}])).
Proof.
  intros call_value fn em σ data seen sendkw.
  assert (Hpre : notify "pre_assembly.asm__send_mail" (pre_receivers σ em)
                   VNone sendkw (tt, [])
                 = (Ret tt, (tt, [Notified "pre_assembly.asm__send_mail" 10
                                    VNone sendkw])))
    by (vm_compute; reflexivity).
  split; [exact Hpre|].
  destruct (send_mail_notifies_with_data σ "assembly.asm" 6 call_value
              (VFn 7) data tt [] tt
              [Notified "pre_assembly.asm__send_mail" 10 VNone sendkw]
              (VBool true) tt Hpre eq_refl) as [_ Hrun].
  rewrite Hrun. vm_compute. reflexivity.
Defined.

Lemma observed_call_trace_witness :
  let p := observer_ok 10 in
  let q := observer_ok 11 in
  let kw : dict := {["b" := VInt 2]} in
  let bound : dict := <["a" := VInt 1]> {["b" := VInt 2]} in
  let em := (observed f_a_b p q).1 in
  let σ := (observed f_a_b p q).2 in
  let sendkw := make_sendkw f_a_b (bound ∪ kw) in
  wrapper σ em [VInt 1] kw (tt, [])
  = (Ret (VInt 1),
     (tt, [] ++ [Notified (pre_name (em_fname em)) (rc_id p) VNone sendkw;
                 Invoked (fn_id f_a_b) [VInt 1] kw;
                 Notified (post_name (em_fname em)) (rc_id q) (VInt 1)
                   sendkw])).
Proof.
  intros p q kw bound.
  apply (observed_call_trace f_a_b p q [VInt 1] kw bound tt []
           VNone tt (VInt 1) tt VNone tt);
    vm_compute; reflexivity.
Defined.


Lemma redecoration_shares_observers_witness :
  let σ := (observed foo (observer_ok 10) (observer_ok 11)).2 in
  let em1 := (emit_signal None None foo "<module>" σ).1 in
  let em2 := (emit_signal None None foo "<module>" σ).1 in
  let σ'' := (emit_signal None None foo "<module>" σ).2 in
  em2 = em1 ∧ wrapper σ'' em2 [] ∅ (tt, []) = wrapper σ em1 [] ∅ (tt, []).
Proof.
  intros σ.
  apply (redecoration_shares_observers None foo "<module>" σ σ [] ∅ (tt, [])).
  reflexivity.
Defined.
